(** * create_test_workbook.py: the HR-estimate fixture generator

    A shallow embedding of [screenshot-tool/create_test_workbook.py].  The
    script builds one openpyxl workbook from hard-coded tables and saves it.
    The workbook object graph is threaded as explicit state through a small
    state-and-exception monad; the operating-system side (script location,
    file system, standard output) is a [World] record threaded through the
    entry point. *)

From Stdlib Require Import ZArith QArith Qround String Ascii List Lia.
From stdpp Require Import gmap strings list list_numbers fin_maps pretty.

Local Open Scope string_scope.
Local Open Scope Z_scope.

(** ** Python values and exceptions *)

(** The exceptions the modelled calls can raise.  [DanglingReference] marks a
    sheet or cell handle that resolves to no object of the workbook (in
    Python: an attribute access on [None], as [wb.active] returns [None]
    when the active index is out of range). *)
Inductive exn : Type :=
  | ValueError (msg : string)
  | IllegalCharacterError (s : string)
  | OSError (msg : string)
  | DanglingReference.

(** A decimal literal [m * 10^-e], as written in the source ([0.1] is
    [Decimal 1 1], [0.15] is [Decimal 15 2]). *)
Record decimal := Decimal { dec_mantissa : Z; dec_places : nat }.

(** What the script stores into a cell: [None], an int, a float literal or a
    str. *)
Inductive value : Type :=
  | VNone
  | VInt (n : Z)
  | VFloat (d : decimal)
  | VStr (s : string).

(** Python [str] on an int. *)
Definition str (n : Z) : string := pretty n.

(** Python [enumerate(l, start)]. *)
Fixpoint enumerate {A : Type} (l : list A) (start : Z) : list (Z * A) :=
  match l with
  | [] => []
  | x :: t => (start, x) :: enumerate t (start + 1)
  end.

(** Python [range(a, b)]. *)
Definition range (a b : Z) : list Z := seqZ a (b - a).

(** ** openpyxl styles (the attributes the script sets) *)

Record Font := { font_bold : bool; font_color : option string }.

Record PatternFill :=
  { fill_type : option string; start_color : string; end_color : string }.

Record Side := { side_style : option string }.

Record Border :=
  { border_left : Side; border_right : Side; border_top : Side; border_bottom : Side }.

(** openpyxl stores colours as aRGB: a six-digit RGB string gets the alpha
    prefix "00".  (Every colour literal of the script is six hex digits.) *)
Definition Color (rgb : string) : string :=
  if (String.length rgb =? 6)%nat then "00" +:+ rgb else rgb.

Definition mkFont (bold : bool) (color : option string) : Font :=
  {| font_bold := bold; font_color := Color <$> color |}.

Definition mkPatternFill (start_color end_color fill_type : string) : PatternFill :=
  {| fill_type := Some fill_type;
     start_color := Color start_color;
     end_color := Color end_color |}.

Definition DEFAULT_FONT : Font := {| font_bold := false; font_color := None |}.

Definition DEFAULT_EMPTY_FILL : PatternFill :=
  {| fill_type := None; start_color := "00000000"; end_color := "00000000" |}.

Definition no_side : Side := {| side_style := None |}.

Definition DEFAULT_BORDER : Border :=
  {| border_left := no_side; border_right := no_side;
     border_top := no_side; border_bottom := no_side |}.

Definition mkBorder_bottom (s : Side) : Border :=
  {| border_left := no_side; border_right := no_side;
     border_top := no_side; border_bottom := s |}.

(** ** Cells *)

(** openpyxl's [Cell.data_type]: 'n', 's', 'f', 'e'. *)
Inductive data_type := TYPE_NUMERIC | TYPE_STRING | TYPE_FORMULA | TYPE_ERROR.

Record Cell :=
  { cell_value : value;
    cell_data_type : data_type;
    cell_font : Font;
    cell_fill : PatternFill;
    cell_border : Border;
    cell_number_format : string }.

(** A cell created by [Worksheet._get_cell]: no value, default style. *)
Definition new_cell : Cell :=
  {| cell_value := VNone; cell_data_type := TYPE_NUMERIC;
     cell_font := DEFAULT_FONT; cell_fill := DEFAULT_EMPTY_FILL;
     cell_border := DEFAULT_BORDER; cell_number_format := "General" |}.

Definition ERROR_CODES : list string :=
  ["#NULL!"; "#DIV/0!"; "#VALUE!"; "#REF!"; "#NAME?"; "#NUM!"; "#N/A"].

(** Control characters that [Cell.check_string] rejects:
    0..8, 11..12 and 14..31. *)
Definition illegal_character (a : ascii) : bool :=
  let n := Z.of_nat (nat_of_ascii a) in
  (n <=? 8) || ((11 <=? n) && (n <=? 12)) || ((14 <=? n) && (n <=? 31)).

Fixpoint has_illegal_character (s : string) : bool :=
  match s with
  | EmptyString => false
  | String a t => illegal_character a || has_illegal_character t
  end.

Fixpoint str_take (n : Z) (s : string) : string :=
  match s with
  | EmptyString => EmptyString
  | String a t => if n <=? 0 then EmptyString else String a (str_take (n - 1) t)
  end.

(** [Cell.check_string]: truncate to 32767 characters, reject control
    characters. *)
Definition check_string (s : string) : exn + string :=
  let s' := str_take 32767 s in
  if has_illegal_character s' then inl (IllegalCharacterError s') else inr s'.

Definition starts_with_eq (s : string) : bool :=
  match s with
  | String "="%char _ => true
  | _ => false
  end.

(** [Cell._bind_value]: infer the data type of a value and store it.  A
    string longer than one character that starts with "=" is a formula. *)
Definition bind_value (v : value) (c : Cell) : exn + Cell :=
  let put dt v' :=
    {| cell_value := v'; cell_data_type := dt;
       cell_font := cell_font c; cell_fill := cell_fill c;
       cell_border := cell_border c; cell_number_format := cell_number_format c |} in
  match v with
  | VStr s =>
      match check_string s with
      | inl e => inl e
      | inr s' =>
          if (1 <? Z.of_nat (String.length s')) && starts_with_eq s'
          then inr (put TYPE_FORMULA (VStr s'))
          else if bool_decide (s' ∈ ERROR_CODES)
          then inr (put TYPE_ERROR (VStr s'))
          else inr (put TYPE_STRING (VStr s'))
      end
  | _ => inr (put TYPE_NUMERIC v)
  end.

Definition with_font (f : Font) (c : Cell) : Cell :=
  {| cell_value := cell_value c; cell_data_type := cell_data_type c;
     cell_font := f; cell_fill := cell_fill c;
     cell_border := cell_border c; cell_number_format := cell_number_format c |}.

Definition with_fill (f : PatternFill) (c : Cell) : Cell :=
  {| cell_value := cell_value c; cell_data_type := cell_data_type c;
     cell_font := cell_font c; cell_fill := f;
     cell_border := cell_border c; cell_number_format := cell_number_format c |}.

Definition with_border (b : Border) (c : Cell) : Cell :=
  {| cell_value := cell_value c; cell_data_type := cell_data_type c;
     cell_font := cell_font c; cell_fill := cell_fill c;
     cell_border := b; cell_number_format := cell_number_format c |}.

Definition with_number_format (nf : string) (c : Cell) : Cell :=
  {| cell_value := cell_value c; cell_data_type := cell_data_type c;
     cell_font := cell_font c; cell_fill := cell_fill c;
     cell_border := cell_border c; cell_number_format := nf |}.

(** ** Conditional formatting, defined names *)

(** The rule built by [CellIsRule(operator, formula, fill, font)]: a rule of
    type "cellIs" with a differential style. *)
Record Rule :=
  { rule_type : string;
    rule_operator : string;
    rule_formula : list string;
    rule_dxf_fill : option PatternFill;
    rule_dxf_font : option Font }.

Definition expand_operator (op : string) : string :=
  if String.eqb op ">" then "greaterThan"
  else if String.eqb op ">=" then "greaterThanOrEqual"
  else if String.eqb op "<" then "lessThan"
  else if String.eqb op "<=" then "lessThanOrEqual"
  else if String.eqb op "=" then "equal"
  else if String.eqb op "==" then "equal"
  else if String.eqb op "!=" then "notEqual"
  else op.

Definition CellIsRule (operator : string) (formula : list string)
    (fill : PatternFill) (font : Font) : Rule :=
  {| rule_type := "cellIs";
     rule_operator := expand_operator operator;
     rule_formula := formula;
     rule_dxf_fill := Some fill;
     rule_dxf_font := Some font |}.

(** [DefinedName(name, attr_text=...)]; [localSheetId] stays [None], which
    makes the name workbook-scoped. *)
Record DefinedName :=
  { dn_name : string; dn_attr_text : string; dn_localSheetId : option Z }.

Definition mkDefinedName (name attr_text : string) : DefinedName :=
  {| dn_name := name; dn_attr_text := attr_text; dn_localSheetId := None |}.

(** ** Worksheets and the workbook *)

Record Worksheet :=
  { ws_title : string;
    ws_cells : gmap (Z * Z) Cell;
    ws_conditional_formatting : list (string * list Rule);
    ws_freeze_panes : option string;
    ws_column_width : gmap string Z }.

(** The workbook: its sheets in order, the index of the active one and the
    defined names.  The document properties (creator, creation and
    modification times) are metadata of the container and are left out. *)
Record Workbook :=
  { wb_sheets : list Worksheet;
    wb_active_sheet_index : nat;
    wb_defined_names : list (string * DefinedName) }.

Definition new_sheet (title : string) : Worksheet :=
  {| ws_title := title; ws_cells := ∅; ws_conditional_formatting := [];
     ws_freeze_panes := None; ws_column_width := ∅ |}.

Definition sheetnames (wb : Workbook) : list string := ws_title <$> wb_sheets wb.

(** ** The build monad: workbook state plus exceptions *)

Definition Build (A : Type) : Type := Workbook → exn + (A * Workbook).

#[global] Instance Build_ret : MRet Build := λ A a wb, inr (a, wb).

#[global] Instance Build_bind : MBind Build := λ A B f m wb,
  match m wb with
  | inl e => inl e
  | inr (a, wb') => f a wb'
  end.

Definition raise {A : Type} (e : exn) : Build A := λ _, inl e.

(** A Python [for x in l: body]. *)
Fixpoint for_each {A : Type} (l : list A) (body : A → Build ()) : Build () :=
  match l with
  | [] => mret ()
  | x :: t => body x ;; for_each t body
  end.

(** Handles: a worksheet is its position in [wb._sheets], a cell is its
    sheet and coordinate.  Every Python variable holding a sheet or a cell
    (ws1, ws2, ws3, cell) is such a handle, so assignments through it reach
    the one shared object. *)
Definition SheetRef := nat.
Definition CellRef := (nat * (Z * Z))%type.

Definition set_sheets (l : list Worksheet) (wb : Workbook) : Workbook :=
  {| wb_sheets := l; wb_active_sheet_index := wb_active_sheet_index wb;
     wb_defined_names := wb_defined_names wb |}.

Definition on_sheet {A : Type} (ws : SheetRef)
    (f : Workbook → Worksheet → exn + (A * Worksheet)) : Build A :=
  λ wb,
    match wb_sheets wb !! ws with
    | None => inl DanglingReference
    | Some sh =>
        match f wb sh with
        | inl e => inl e
        | inr (a, sh') => inr (a, set_sheets (<[ws := sh']> (wb_sheets wb)) wb)
        end
    end.

Definition set_cells (m : gmap (Z * Z) Cell) (sh : Worksheet) : Worksheet :=
  {| ws_title := ws_title sh; ws_cells := m;
     ws_conditional_formatting := ws_conditional_formatting sh;
     ws_freeze_panes := ws_freeze_panes sh;
     ws_column_width := ws_column_width sh |}.

(** [Worksheet.cell(row, column, value)]: fetch the cell, creating it when
    absent, and store [value] unless it is [None]. *)
Definition ws_cell (ws : SheetRef) (row column : Z) (v : value) : Build CellRef :=
  on_sheet ws (λ _ sh,
    if (row <? 1) || (column <? 1)
    then inl (ValueError "Row or column values must be at least 1")
    else if negb ((0 <? row) && (row <? 1048577))
    then inl (ValueError "Row numbers must be between 1 and 1048576")
    else
      let c := default new_cell (ws_cells sh !! (row, column)) in
      match v with
      | VNone => inr ((ws, (row, column)), set_cells (<[(row, column) := c]> (ws_cells sh)) sh)
      | _ =>
          match bind_value v c with
          | inl e => inl e
          | inr c' =>
              inr ((ws, (row, column)), set_cells (<[(row, column) := c']> (ws_cells sh)) sh)
          end
      end).

Definition on_cell (c : CellRef) (f : Cell → exn + Cell) : Build () :=
  on_sheet c.1 (λ _ sh,
    match ws_cells sh !! c.2 with
    | None => inl DanglingReference
    | Some x =>
        match f x with
        | inl e => inl e
        | inr x' => inr ((), set_cells (<[c.2 := x']> (ws_cells sh)) sh)
        end
    end).

(** Attribute assignments on a cell. *)
Definition set_value (c : CellRef) (v : value) : Build () := on_cell c (bind_value v).
Definition set_font (c : CellRef) (f : Font) : Build () := on_cell c (λ x, inr (with_font f x)).
Definition set_fill (c : CellRef) (f : PatternFill) : Build () :=
  on_cell c (λ x, inr (with_fill f x)).
Definition set_border (c : CellRef) (b : Border) : Build () :=
  on_cell c (λ x, inr (with_border b x)).
Definition set_number_format (c : CellRef) (nf : string) : Build () :=
  on_cell c (λ x, inr (with_number_format nf x)).

(** ** Cell coordinates ([openpyxl.utils.cell]) *)

Definition is_upper (a : ascii) : bool :=
  let n := Z.of_nat (nat_of_ascii a) in (65 <=? n) && (n <=? 90).
Definition is_lower (a : ascii) : bool :=
  let n := Z.of_nat (nat_of_ascii a) in (97 <=? n) && (n <=? 122).
Definition is_digit (a : ascii) : bool :=
  let n := Z.of_nat (nat_of_ascii a) in (48 <=? n) && (n <=? 57).
Definition is_letter (a : ascii) : bool := is_upper a || is_lower a.

Definition upper (a : ascii) : ascii :=
  if is_lower a then ascii_of_nat (nat_of_ascii a - 32) else a.
Definition lower (a : ascii) : ascii :=
  if is_upper a then ascii_of_nat (nat_of_ascii a + 32) else a.

Definition digit_value (a : ascii) : Z := Z.of_nat (nat_of_ascii a) - 48.

(** Decimal digits to an int, most significant first. *)
Definition int_of_digits (ds : list ascii) : Z :=
  fold_left (λ acc d, 10 * acc + digit_value d) ds 0.

(** [get_column_letter]: 1 is "A", 26 is "Z", 27 is "AA"; defined on
    1..18278 (up to "ZZZ"), [ValueError] elsewhere. *)
Fixpoint column_letters (fuel : nat) (col_idx : Z) (letters : list ascii) : list ascii :=
  match fuel with
  | O => letters
  | S fuel' =>
      if 0 <? col_idx then
        let q := col_idx / 26 in
        let r := col_idx mod 26 in
        let '(q, r) := if r =? 0 then (q - 1, 26) else (q, r) in
        column_letters fuel' q (ascii_of_nat (Z.to_nat (r + 64)) :: letters)
      else letters
  end.

Definition get_column_letter (col_idx : Z) : exn + string :=
  if (1 <=? col_idx) && (col_idx <=? 18278)
  then inr (string_of_list_ascii (column_letters 3 col_idx []))
  else inl (ValueError ("Invalid column index " +:+ str col_idx)).

(** [column_index_from_string]: the inverse, on one to three letters. *)
Definition column_index_from_letters (ls : list ascii) : Z :=
  fold_left (λ acc a, 26 * acc + (Z.of_nat (nat_of_ascii (upper a)) - 64)) ls 0.

Fixpoint span (p : ascii → bool) (l : list ascii) : list ascii * list ascii :=
  match l with
  | a :: t => if p a then let '(x, y) := span p t in (a :: x, y) else ([], l)
  | [] => ([], [])
  end.

Definition skip_dollar (l : list ascii) : list ascii :=
  match l with
  | "$"%char :: t => t
  | _ => l
  end.

(** One cell reference, absolute or relative ("A3", "$A$3"): the pair
    (row, column) and the unread rest. *)
Definition read_cell_ref (l : list ascii) : option ((Z * Z) * list ascii) :=
  let '(letters, l1) := span is_letter (skip_dollar l) in
  let '(digits, l2) := span is_digit (skip_dollar l1) in
  if (1 <=? Z.of_nat (length letters)) && (Z.of_nat (length letters) <=? 3)
     && (1 <=? Z.of_nat (length digits)) && (1 <=? int_of_digits digits)
  then Some ((int_of_digits digits, column_index_from_letters letters), l2)
  else None.

(** [coordinate_to_tuple]. *)
Definition coordinate_to_tuple (s : string) : option (Z * Z) :=
  match read_cell_ref (list_ascii_of_string s) with
  | Some (rc, []) => Some rc
  | _ => None
  end.

(** A rectangular block of cells: top-left and bottom-right (row, column). *)
Record CellRange := { rng_first : Z * Z; rng_last : Z * Z }.

(** [range_boundaries] on "A1:B2" or a single cell. *)
Definition range_of_chars (l : list ascii) : option CellRange :=
  match read_cell_ref l with
  | Some (a, []) => Some {| rng_first := a; rng_last := a |}
  | Some (a, ":"%char :: l') =>
      match read_cell_ref l' with
      | Some (b, []) => Some {| rng_first := a; rng_last := b |}
      | _ => None
      end
  | _ => None
  end.

Definition range_boundaries (s : string) : option CellRange :=
  range_of_chars (list_ascii_of_string s).

Definition in_range (rg : CellRange) (rc : Z * Z) : bool :=
  ((rng_first rg).1 <=? rc.1) && (rc.1 <=? (rng_last rg).1)
  && ((rng_first rg).2 <=? rc.2) && (rc.2 <=? (rng_last rg).2).

(** The destination of a defined name's [attr_text] "Sheet!range": the sheet
    title and the block of cells. *)
Definition destination (attr_text : string) : option (string * CellRange) :=
  let '(sheet, rest) := span (λ a, negb (Ascii.eqb a "!")) (list_ascii_of_string attr_text) in
  match rest with
  | "!"%char :: r =>
      match range_of_chars r with
      | Some rg => Some (string_of_list_ascii sheet, rg)
      | None => None
      end
  | _ => None
  end.

(** ** Sheet titles *)

Definition lower_string (s : string) : list ascii := lower <$> list_ascii_of_string s.

Fixpoint is_prefix_nocase (p l : list ascii) : bool :=
  match p, l with
  | [], _ => true
  | a :: p', b :: l' => Ascii.eqb (lower a) (lower b) && is_prefix_nocase p' l'
  | _ :: _, [] => false
  end.

(** The digit groups that [re.findall] returns over the comma-joined sheet
    names for the pattern: [value], then any digits, then an optional comma
    (ignoring case).  One group per non-overlapping occurrence of [value],
    scanning left to right; [skip] characters are still covered by the
    previous match. *)
Fixpoint findall_counts (v : list ascii) (skip : nat) (hay : list ascii) : list (list ascii) :=
  match hay with
  | [] => []
  | _ :: t =>
      match skip with
      | S k => findall_counts v k t
      | O =>
          if is_prefix_nocase v hay then
            let after := drop (length v) hay in
            let '(ds, after') := span is_digit after in
            let comma := match after' with ","%char :: _ => 1%nat | _ => 0%nat end in
            ds :: findall_counts v (length v + length ds + comma - 1)%nat t
          else findall_counts v 0 t
      end
  end.

Definition join_names (names : list string) : list ascii :=
  list_ascii_of_string (String.concat "," names).

(** [avoid_duplicate_name]: when a sheet of that name (ignoring case)
    exists, append one more than the highest number already in use. *)
Definition avoid_duplicate_name (names : list string) (v : string) : string :=
  if existsb (λ n, bool_decide (lower_string n = lower_string v)) names then
    let groups := findall_counts (list_ascii_of_string v) 0 (join_names names) in
    match groups with
    | [] => v
    | _ =>
        let counts := int_of_digits <$> filter (λ g, g ≠ []) groups in
        let highest := fold_right Z.max 0 counts in
        v +:+ str (highest + 1)
    end
  else v.

(** Characters that may not occur in a sheet title: backslash, star,
    question mark, colon, slash and the square brackets. *)
Definition invalid_title_char (a : ascii) : bool :=
  bool_decide (a ∈ ["\"; "*"; "?"; ":"; "/"; "["; "]"]%char).

(** The checks of the [title] setter, given the current title of the sheet
    and the names in use. *)
Definition checked_title (names : list string) (current v : string) : exn + string :=
  if String.eqb v "" then inl (ValueError "Title must have at least one character")
  else if existsb invalid_title_char (list_ascii_of_string v)
  then inl (ValueError "Invalid character found in sheet title")
  else if negb (String.eqb current v) then inr (avoid_duplicate_name names v)
  else inr v.

Definition with_title (t : string) (sh : Worksheet) : Worksheet :=
  {| ws_title := t; ws_cells := ws_cells sh;
     ws_conditional_formatting := ws_conditional_formatting sh;
     ws_freeze_panes := ws_freeze_panes sh;
     ws_column_width := ws_column_width sh |}.

(** [ws.title = v]. *)
Definition set_title (ws : SheetRef) (v : string) : Build () :=
  on_sheet ws (λ wb sh,
    match checked_title (sheetnames wb) (ws_title sh) v with
    | inl e => inl e
    | inr t => inr ((), with_title t sh)
    end).

(** ** Workbook operations *)

(** [Workbook()]: one sheet, titled "Sheet", which is the active one. *)
Definition Workbook_new : Workbook :=
  {| wb_sheets := [new_sheet "Sheet"]; wb_active_sheet_index := 0;
     wb_defined_names := [] |}.

(** [wb.active]. *)
Definition active : Build SheetRef := λ wb, inr (wb_active_sheet_index wb, wb).

(** [wb.create_sheet(title)]: a new sheet (whose title starts out as the
    empty string, then goes through the title setter), appended last. *)
Definition create_sheet (title : string) : Build SheetRef := λ wb,
  match checked_title (sheetnames wb) "" title with
  | inl e => inl e
  | inr t => inr (length (wb_sheets wb), set_sheets (wb_sheets wb ++ [new_sheet t])%list wb)
  end.

(** Assignment into a Python dict that keeps insertion order: an existing
    key keeps its place. *)
Fixpoint dict_set {V : Type} (k : string) (v : V) (d : list (string * V)) : list (string * V) :=
  match d with
  | [] => [(k, v)]
  | (k', v') :: t => if String.eqb k' k then (k, v) :: t else (k', v') :: dict_set k v t
  end.

(** [wb.defined_names.add(dn)], which is [defined_names[dn.name] = dn]. *)
Definition defined_names_add (dn : DefinedName) : Build () := λ wb,
  inr ((), {| wb_sheets := wb_sheets wb;
              wb_active_sheet_index := wb_active_sheet_index wb;
              wb_defined_names := dict_set (dn_name dn) dn (wb_defined_names wb) |}).

(** [ws.conditional_formatting.add(range_string, rule)]: the rules of one
    range are kept together, in the order added. *)
Fixpoint cf_add (rg : string) (r : Rule) (l : list (string * list Rule))
    : list (string * list Rule) :=
  match l with
  | [] => [(rg, [r])]
  | (rg', rs) :: t =>
      if String.eqb rg' rg then (rg', (rs ++ [r])%list) :: t else (rg', rs) :: cf_add rg r t
  end.

Definition conditional_formatting_add (ws : SheetRef) (rg : string) (r : Rule) : Build () :=
  on_sheet ws (λ _ sh,
    match range_boundaries rg with
    | None => inl (ValueError "Invalid range")
    | Some _ =>
        inr ((), {| ws_title := ws_title sh; ws_cells := ws_cells sh;
                    ws_conditional_formatting := cf_add rg r (ws_conditional_formatting sh);
                    ws_freeze_panes := ws_freeze_panes sh;
                    ws_column_width := ws_column_width sh |})
    end).

(** [ws.freeze_panes = topLeftCell]; "A1" means no frozen pane. *)
Definition set_freeze_panes (ws : SheetRef) (topLeftCell : string) : Build () :=
  on_sheet ws (λ _ sh,
    let put fp :=
      {| ws_title := ws_title sh; ws_cells := ws_cells sh;
         ws_conditional_formatting := ws_conditional_formatting sh;
         ws_freeze_panes := fp; ws_column_width := ws_column_width sh |} in
    if String.eqb topLeftCell "A1" then inr ((), put None)
    else
      match coordinate_to_tuple topLeftCell with
      | None => inl (ValueError "Invalid cell coordinates")
      | Some _ => inr ((), put (Some topLeftCell))
      end).

(** [ws.column_dimensions[col].width = width]. *)
Definition set_column_width (ws : SheetRef) (col : string) (width : Z) : Build () :=
  on_sheet ws (λ _ sh,
    inr ((), {| ws_title := ws_title sh; ws_cells := ws_cells sh;
                ws_conditional_formatting := ws_conditional_formatting sh;
                ws_freeze_panes := ws_freeze_panes sh;
                ws_column_width := <[col := width]> (ws_column_width sh) |})).

(** Lift a library call that returns or raises into the monad. *)
Definition call {A : Type} (r : exn + A) : Build A := λ wb,
  match r with
  | inl e => inl e
  | inr a => inr (a, wb)
  end.

(** ** The world outside the process *)

(** What a run can observe or change outside the workbook.  [module_dir] is
    the value of [os.path.dirname(os.path.abspath(__file__))];
    [os_path_join] is the platform's [os.path.join]; [open_error p] is the
    message of the [OSError] raised when the file [p] cannot be created
    ([None] when it can); a saved file is kept as the workbook model that
    was serialised into it. *)
Record World :=
  { sys_argv : list string;
    os_environ : gmap string string;
    module_dir : string;
    os_path_join : string → string → string;
    open_error : string → option string;
    fs_files : gmap string Workbook;
    stdout : list string }.

Definition OUTPUT_DIR (w : World) : string := module_dir w.

Definition OUTPUT_PATH (w : World) : string :=
  os_path_join w (OUTPUT_DIR w) "TestWorkbook_HR_Estimate.xlsx".

(** [wb.save(filename)]: create (or truncate) the file and write the
    archive; an [OSError] from opening the file leaves the world as it was. *)
Definition Workbook_save (wb : Workbook) (filename : string) (w : World) : exn + World :=
  match open_error w filename with
  | Some msg => inl (OSError msg)
  | None =>
      inr {| sys_argv := sys_argv w; os_environ := os_environ w;
             module_dir := module_dir w; os_path_join := os_path_join w;
             open_error := open_error w;
             fs_files := <[filename := wb]> (fs_files w);
             stdout := stdout w |}
  end.

Definition print (line : string) (w : World) : World :=
  {| sys_argv := sys_argv w; os_environ := os_environ w;
     module_dir := module_dir w; os_path_join := os_path_join w;
     open_error := open_error w; fs_files := fs_files w;
     stdout := (stdout w ++ [line])%list |}.

(** ** The script *)

(** The styles and the literal tables of [create_test_workbook] (locals of
    the function, none of them ever reassigned). *)
Definition blue_fill := mkPatternFill "D9E1F2" "D9E1F2" "solid".
Definition green_fill := mkPatternFill "E2EFDA" "E2EFDA" "solid".
Definition orange_fill := mkPatternFill "FCE4D6" "FCE4D6" "solid".
Definition gray_fill := mkPatternFill "F2F2F2" "F2F2F2" "solid".
Definition red_fill := mkPatternFill "FC9090" "FC9090" "solid".
Definition bold_font := mkFont true None.
Definition red_font := mkFont false (Some "990000").
Definition thin_border := mkBorder_bottom {| side_style := Some "thin" |}.

Definition headers : list string :=
  ["No"; "Name"; "Dept"; "Grade"; "BaseSalary";
   "RoleAllow"; "Commute"; "Total"; "MoM"; "Note"].

Definition sub_headers : list string :=
  [""; ""; ""; ""; "(JPY)"; "(JPY)"; "(JPY)"; "(JPY)"; "(%)"; ""].

(** (no, name, dept, grade, base, role, commute) *)
Definition data : list (Z * string * string * string * Z * Z * Z) :=
  [(1, "Tanaka", "Sales", "M1", 350000, 50000, 15000);
   (2, "Yamada", "HR", "S3", 280000, 0, 20000);
   (3, "Suzuki", "Tech", "E2", 320000, 30000, 12000);
   (4, "Sato", "Sales", "M2", 380000, 60000, 18000);
   (5, "Takahashi", "Admin", "S2", 260000, 0, 10000);
   (6, "Watanabe", "Tech", "E3", 340000, 35000, 25000);
   (7, "Ito", "HR", "S1", 250000, 0, 8000);
   (8, "Nakamura", "Sales", "M1", 350000, 50000, 15000);
   (9, "Kobayashi", "Tech", "E1", 300000, 20000, 22000);
   (10, "Kato", "Admin", "S3", 280000, 0, 10000)].

Definition col_widths : list (string * Z) :=
  [("A", 5); ("B", 14); ("C", 8); ("D", 8); ("E", 12);
   ("F", 12); ("G", 12); ("H", 14); ("I", 8); ("J", 10)].

Definition dept_headers : list string := ["Dept"; "Count"; "TotalCost"; "AvgSalary"].

Definition depts : list string := ["Sales"; "HR"; "Tech"; "Admin"].

Definition settings : list (string * value) :=
  [("CalcMonth", VStr "2026-02");
   ("TaxRate", VFloat (Decimal 1 1));
   ("InsuranceRate", VFloat (Decimal 15 2));
   ("CommuteLimit", VInt 30000);
   ("Author", VStr "BP_User")].

(** Lines 27-173 of [create_test_workbook]: everything between
    [wb = Workbook()] and [wb.save], run on the fresh workbook. *)
Definition populate : Build () :=
  (* Sheet1: EstimateData *)
  ws1 ← active;
  set_title ws1 "EstimateData";;

  for_each (enumerate headers 1) (λ '(c, h),
    cell ← ws_cell ws1 1 c (VStr h);
    set_font cell bold_font;;
    set_fill cell blue_fill;;
    set_border cell thin_border);;

  for_each (enumerate sub_headers 1) (λ '(c, sh),
    cell ← ws_cell ws1 2 c (VStr sh);
    set_fill cell green_fill);;

  for_each (enumerate data 0) (λ '(i, (no, name, dept, grade, base, role, commute)),
    let row := i + 3 in
    ws_cell ws1 row 1 (VInt no);;
    ws_cell ws1 row 2 (VStr name);;
    ws_cell ws1 row 3 (VStr dept);;
    ws_cell ws1 row 4 (VStr grade);;
    c5 ← ws_cell ws1 row 5 (VInt base); set_number_format c5 "#,##0";;
    c6 ← ws_cell ws1 row 6 (VInt role); set_number_format c6 "#,##0";;
    c7 ← ws_cell ws1 row 7 (VInt commute); set_number_format c7 "#,##0";;
    c8 ← ws_cell ws1 row 8 VNone;
    set_value c8 (VStr ("=E" +:+ str row +:+ "+F" +:+ str row +:+ "+G" +:+ str row));;
    c8 ← ws_cell ws1 row 8 VNone;
    set_number_format c8 "#,##0";;
    c9 ← ws_cell ws1 row 9 VNone;
    set_value c9 (VStr ("=ROUND((H" +:+ str row +:+ "-H" +:+ str row +:+ "*0.98)/H"
                        +:+ str row +:+ "*100,1)"));;
    c9 ← ws_cell ws1 row 9 VNone;
    set_number_format c9 "0.0");;

  c ← ws_cell ws1 13 4 (VStr "Total");
  set_font c bold_font;;
  for_each (range 5 9) (λ c,
    col_letter ← call (get_column_letter c);
    x ← ws_cell ws1 13 c VNone;
    set_value x (VStr ("=SUM(" +:+ col_letter +:+ "3:" +:+ col_letter +:+ "12)"));;
    x ← ws_cell ws1 13 c VNone; set_number_format x "#,##0";;
    x ← ws_cell ws1 13 c VNone; set_font x bold_font;;
    x ← ws_cell ws1 13 c VNone; set_fill x orange_fill);;

  for_each (range 15 21) (λ r,
    for_each (range 1 11) (λ c,
      x ← ws_cell ws1 r c VNone; set_fill x gray_fill));;

  conditional_formatting_add ws1 "I3:I12"
    (CellIsRule "greaterThan" ["2"] red_fill red_font);;

  set_freeze_panes ws1 "A3";;

  for_each col_widths (λ '(col, width), set_column_width ws1 col width);;

  (* Sheet2: DeptSummary *)
  ws2 ← create_sheet "DeptSummary";

  for_each (enumerate dept_headers 1) (λ '(c, h),
    cell ← ws_cell ws2 1 c (VStr h);
    set_font cell bold_font;;
    set_fill cell blue_fill);;

  for_each (enumerate depts 0) (λ '(d, dept),
    let row := d + 2 in
    ws_cell ws2 row 1 (VStr dept);;
    x ← ws_cell ws2 row 2 VNone;
    set_value x (VStr ("=COUNTIF(EstimateData!C:C,A" +:+ str row +:+ ")"));;
    x ← ws_cell ws2 row 3 VNone;
    set_value x (VStr ("=SUMIF(EstimateData!C:C,A" +:+ str row +:+ ",EstimateData!H:H)"));;
    x ← ws_cell ws2 row 3 VNone; set_number_format x "#,##0";;
    x ← ws_cell ws2 row 4 VNone;
    set_value x (VStr ("=IF(B" +:+ str row +:+ ">0,C" +:+ str row +:+ "/B" +:+ str row +:+ ",0)"));;
    x ← ws_cell ws2 row 4 VNone; set_number_format x "#,##0");;

  let dn1 := mkDefinedName "DeptMaster" "DeptSummary!$A$2:$A$5" in
  defined_names_add dn1;;
  let dn2 := mkDefinedName "TotalCost" "DeptSummary!$C$2:$C$5" in
  defined_names_add dn2;;

  for_each ["A"; "B"; "C"; "D"] (λ col, set_column_width ws2 col 14);;

  (* Sheet3: Settings *)
  ws3 ← create_sheet "Settings";

  c ← ws_cell ws3 1 1 (VStr "SettingName"); set_font c bold_font;;
  c ← ws_cell ws3 1 2 (VStr "Value"); set_font c bold_font;;

  for_each (enumerate settings 0) (λ '(i, (name, val)),
    ws_cell ws3 (i + 2) 1 (VStr name);;
    ws_cell ws3 (i + 2) 2 val;;
    mret ());;

  set_column_width ws3 "A" 18;;
  set_column_width ws3 "B" 14.

(** [create_test_workbook()], as a transformer of the world: the raised
    exception or [()], and the world the run leaves behind. *)
Definition create_test_workbook (w : World) : (exn + ()) * World :=
  match populate Workbook_new with
  | inl e => (inl e, w)
  | inr (_, wb) =>
      match Workbook_save wb (OUTPUT_PATH w) w with
      | inl e => (inl e, w)
      | inr w1 =>
          let w2 := print ("Test workbook created: " +:+ OUTPUT_PATH w) w1 in
          let w3 := print "  Sheet1: EstimateData (freeze panes, formulas, conditional format, format-only empty cells)" w2 in
          let w4 := print "  Sheet2: DeptSummary (cross-sheet formulas, named ranges)" w3 in
          let w5 := print "  Sheet3: Settings (master data)" w4 in
          let w6 := print "  Note: .xlsx format (no VBA). For VBA testing, use PS script on a PC with valid Excel license." w5 in
          (inr (), w6)
      end
  end.

(** The script's entry point, [if __name__ == "__main__":
    create_test_workbook()], with nothing around the call: the exit status
    of the process is 0 when the call returns and 1 when it raises. *)
Definition main (w : World) : Z * World :=
  match create_test_workbook w with
  | (inr _, w') => (0, w')
  | (inl _, w') => (1, w')
  end.

(** ** Evaluating formulas

    The script never evaluates a formula; the application that opens the
    file does.  To speak about the numbers the data rows come to, this is
    the fragment of the formula language their formulas use: decimal
    constants, same-sheet cell references, the four arithmetic operators,
    parentheses and ROUND, over exact rationals. *)

Inductive token : Type :=
  | TNum (q : Q)
  | TRef (rc : Z * Z)
  | TName (s : string)
  | TSym (a : ascii).

(** The constant with integer digits [ip] and fraction digits [fp]. *)
Definition number (ip fp : list ascii) : Q :=
  Qmake (int_of_digits (ip ++ fp)%list) (Z.to_pos (10 ^ Z.of_nat (length fp))).

Fixpoint lex (fuel : nat) (l : list ascii) : option (list token) :=
  match fuel with
  | O => match l with [] => Some [] | _ => None end
  | S n =>
      match l with
      | [] => Some []
      | a :: t =>
          if Ascii.eqb a " " then lex n t
          else if is_digit a then
            let '(ip, l1) := span is_digit l in
            let '(fp, l2) :=
              match l1 with
              | "."%char :: l1' => span is_digit l1'
              | _ => ([], l1)
              end in
            cons (TNum (number ip fp)) <$> lex n l2
          else if is_letter a || Ascii.eqb a "$" then
            match read_cell_ref l with
            | Some (rc, rest) => cons (TRef rc) <$> lex n rest
            | None =>
                let '(nm, rest) := span is_letter l in
                match nm with
                | [] => None
                | _ => cons (TName (string_of_list_ascii (upper <$> nm))) <$> lex n rest
                end
            end
          else cons (TSym a) <$> lex n t
      end
  end.

Inductive binop := Add | Sub | Mul | Div.

Inductive expr : Type :=
  | ENum (q : Q)
  | ERef (rc : Z * Z)
  | ENeg (a : expr)
  | EBin (op : binop) (a b : expr)
  | ERound (a digits : expr).

(** Recursive descent: sums of products of atoms, left-associative. *)
Fixpoint parse_sum (fuel : nat) (ts : list token) : option (expr * list token) :=
  match fuel with
  | O => None
  | S n =>
      match parse_product n ts with
      | Some (a, rest) => sum_rest n a rest
      | None => None
      end
  end
with sum_rest (fuel : nat) (acc : expr) (ts : list token) : option (expr * list token) :=
  match fuel with
  | O => None
  | S n =>
      match ts with
      | TSym "+" :: r =>
          match parse_product n r with
          | Some (b, r') => sum_rest n (EBin Add acc b) r'
          | None => None
          end
      | TSym "-" :: r =>
          match parse_product n r with
          | Some (b, r') => sum_rest n (EBin Sub acc b) r'
          | None => None
          end
      | _ => Some (acc, ts)
      end
  end
with parse_product (fuel : nat) (ts : list token) : option (expr * list token) :=
  match fuel with
  | O => None
  | S n =>
      match parse_atom n ts with
      | Some (a, rest) => product_rest n a rest
      | None => None
      end
  end
with product_rest (fuel : nat) (acc : expr) (ts : list token) : option (expr * list token) :=
  match fuel with
  | O => None
  | S n =>
      match ts with
      | TSym "*" :: r =>
          match parse_atom n r with
          | Some (b, r') => product_rest n (EBin Mul acc b) r'
          | None => None
          end
      | TSym "/" :: r =>
          match parse_atom n r with
          | Some (b, r') => product_rest n (EBin Div acc b) r'
          | None => None
          end
      | _ => Some (acc, ts)
      end
  end
with parse_atom (fuel : nat) (ts : list token) : option (expr * list token) :=
  match fuel with
  | O => None
  | S n =>
      match ts with
      | TNum q :: r => Some (ENum q, r)
      | TRef rc :: r => Some (ERef rc, r)
      | TSym "-" :: r =>
          match parse_atom n r with
          | Some (a, r') => Some (ENeg a, r')
          | None => None
          end
      | TSym "(" :: r =>
          match parse_sum n r with
          | Some (a, TSym ")" :: r') => Some (a, r')
          | _ => None
          end
      | TName "ROUND" :: TSym "(" :: r =>
          match parse_sum n r with
          | Some (a, TSym "," :: r1) =>
              match parse_sum n r1 with
              | Some (d, TSym ")" :: r2) => Some (ERound a d, r2)
              | _ => None
              end
          | _ => None
          end
      | _ => None
      end
  end.

(** An expression text, all of it. *)
Definition parse_operand (s : string) : option expr :=
  let l := list_ascii_of_string s in
  match lex (S (length l)) l with
  | Some ts =>
      match parse_sum (4 * S (length ts)) ts with
      | Some (e, []) => Some e
      | _ => None
      end
  | None => None
  end.

(** A formula cell's text: "=" and an expression. *)
Definition parse_formula (s : string) : option expr :=
  match s with
  | String "="%char s' => parse_operand s'
  | _ => None
  end.

(** ROUND(x, k): to k decimal places, halves away from zero. *)
Definition ROUND (x : Q) (k : Z) : Q :=
  let s := (inject_Z 10 ^ k)%Q in
  if Qle_bool 0 x
  then (inject_Z (Qfloor (x * s + (1 # 2))) / s)%Q
  else (- (inject_Z (Qfloor (- x * s + (1 # 2))) / s))%Q.

(** The digits argument is truncated to an integer. *)
Definition Qtrunc (x : Q) : Z := if Qle_bool 0 x then Qfloor x else Qceiling x.

(** The value of an expression, given the values of the cells it refers to;
    [None] stands for an error value such as a division by zero. *)
Fixpoint eval_expr (lookup : Z * Z → option Q) (e : expr) : option Q :=
  match e with
  | ENum q => Some q
  | ERef rc => lookup rc
  | ENeg a => Qopp <$> eval_expr lookup a
  | EBin op a b =>
      match eval_expr lookup a, eval_expr lookup b with
      | Some x, Some y =>
          match op with
          | Add => Some (x + y)%Q
          | Sub => Some (x - y)%Q
          | Mul => Some (x * y)%Q
          | Div => if Qeq_bool y 0 then None else Some (x / y)%Q
          end
      | _, _ => None
      end
  | ERound a d =>
      match eval_expr lookup a, eval_expr lookup d with
      | Some x, Some k => Some (ROUND x (Qtrunc k))
      | _, _ => None
      end
  end.

Definition decimal_value (d : decimal) : Q :=
  Qmake (dec_mantissa d) (Z.to_pos (10 ^ Z.of_nat (dec_places d))).

(** The number a cell of the sheet comes to: a literal number is itself, an
    empty or absent cell counts as 0, a formula is evaluated with its
    references resolved in the same sheet ([depth] bounds the length of
    reference chains), a text has no number. *)
Fixpoint cell_number (depth : nat) (sh : Worksheet) (rc : Z * Z) : option Q :=
  match depth with
  | O => None
  | S d =>
      match ws_cells sh !! rc with
      | None => Some 0%Q
      | Some c =>
          match cell_value c with
          | VNone => Some 0%Q
          | VInt n => Some (inject_Z n)
          | VFloat x => Some (decimal_value x)
          | VStr s =>
              match cell_data_type c with
              | TYPE_FORMULA => parse_formula s ≫= eval_expr (cell_number d sh)
              | _ => None
              end
          end
      end
  end.

(** Whether a [cellIs] rule holds of a cell value. *)
Definition rule_holds (r : Rule) (v : Q) : option bool :=
  if negb (String.eqb (rule_type r) "cellIs") then None
  else
    match rule_formula r with
    | [t] =>
        match parse_operand t ≫= eval_expr (λ _, None) with
        | Some th =>
            if String.eqb (rule_operator r) "greaterThan" then Some (negb (Qle_bool v th))
            else if String.eqb (rule_operator r) "greaterThanOrEqual" then Some (Qle_bool th v)
            else if String.eqb (rule_operator r) "lessThan" then Some (negb (Qle_bool th v))
            else if String.eqb (rule_operator r) "lessThanOrEqual" then Some (Qle_bool v th)
            else if String.eqb (rule_operator r) "equal" then Some (Qeq_bool v th)
            else if String.eqb (rule_operator r) "notEqual" then Some (negb (Qeq_bool v th))
            else None
        | None => None
        end
    | _ => None
    end.

(** The conditional-format rules whose range covers a cell. *)
Definition rules_at (sh : Worksheet) (rc : Z * Z) : list Rule :=
  flat_map (λ '(rg, rs),
              match range_boundaries rg with
              | Some b => if in_range b rc then rs else []
              | None => []
              end)
           (ws_conditional_formatting sh).

(** Whether some rule covering the cell holds of its value, so that the
    rule's style is applied; [None] when the cell or a rule has no value. *)
Definition highlighted (sh : Worksheet) (rc : Z * Z) : option bool :=
  match cell_number 3 sh rc with
  | Some v =>
      foldr (λ r acc,
               match rule_holds r v, acc with
               | Some b, Some b' => Some (b || b')
               | _, _ => None
               end)
            (Some false) (rules_at sh rc)
  | None => None
  end.

(** ** Observing a run *)

(** [wb[name]]: the first sheet with that title. *)
Definition sheet_named (wb : Workbook) (name : string) : option Worksheet :=
  find (λ sh, String.eqb (ws_title sh) name) (wb_sheets wb).

(** [wb[name].cell(row, column)] of an existing cell, without creating it. *)
Definition cell_at (wb : Workbook) (name : string) (rc : Z * Z) : option Cell :=
  sheet_named wb name ≫= λ sh, ws_cells sh !! rc.

(** The workbook a run leaves in its output file; [None] when the run
    raised. *)
Definition produced (w : World) : option Workbook :=
  match create_test_workbook w with
  | (inr _, w') => fs_files w' !! OUTPUT_PATH w
  | (inl _, _) => None
  end.

(** The workbook in memory when [wb.save] is reached. *)
Definition fixture : Workbook :=
  Eval vm_compute in
    match populate Workbook_new with
    | inr (_, wb) => wb
    | inl _ => Workbook_new
    end.

(** [os.path.join] on POSIX, for a relative second component. *)
Definition posix_join (a b : string) : string := a +:+ "/" +:+ b.

(** Two worlds to run in: a writable directory, and (below) a read-only
    one. *)
Definition writable_world : World :=
  {| sys_argv := ["create_test_workbook.py"]; os_environ := ∅;
     module_dir := "/repo/screenshot-tool"; os_path_join := posix_join;
     open_error := λ _, None; fs_files := ∅; stdout := [] |}.

(** A world in which no file can be created. *)
Definition readonly_world : World :=
  {| sys_argv := ["create_test_workbook.py"; "--verbose"];
     os_environ := {[ "HOME" := "/root" ]};
     module_dir := "/mnt/ro"; os_path_join := posix_join;
     open_error := λ p, Some ("[Errno 13] Permission denied: " +:+ p);
     fs_files := ∅; stdout := [] |}.

#[global] Instance exn_eq_dec : EqDecision exn.
Proof. solve_decision. Defined.
#[global] Instance decimal_eq_dec : EqDecision decimal.
Proof. solve_decision. Defined.
#[global] Instance value_eq_dec : EqDecision value.
Proof. solve_decision. Defined.
#[global] Instance data_type_eq_dec : EqDecision data_type.
Proof. solve_decision. Defined.
#[global] Instance Font_eq_dec : EqDecision Font.
Proof. solve_decision. Defined.
#[global] Instance PatternFill_eq_dec : EqDecision PatternFill.
Proof. solve_decision. Defined.
#[global] Instance Side_eq_dec : EqDecision Side.
Proof. solve_decision. Defined.
#[global] Instance Border_eq_dec : EqDecision Border.
Proof. solve_decision. Defined.
#[global] Instance Cell_eq_dec : EqDecision Cell.
Proof. solve_decision. Defined.
#[global] Instance Rule_eq_dec : EqDecision Rule.
Proof. solve_decision. Defined.
#[global] Instance Q_eq_dec : EqDecision Q.
Proof. solve_decision. Defined.
#[global] Instance binop_eq_dec : EqDecision binop.
Proof. solve_decision. Defined.
#[global] Instance expr_eq_dec : EqDecision expr.
Proof. solve_decision. Defined.

(** ** Checks and test worlds used in the proofs *)

(** The text written to H(r), as the f-string builds it. *)
Definition total_formula (r : Z) : string :=
  "=E" +:+ str r +:+ "+F" +:+ str r +:+ "+G" +:+ str r.

(** The text written to I(r). *)
Definition mom_formula (r : Z) : string :=
  "=ROUND((H" +:+ str r +:+ "-H" +:+ str r +:+ "*0.98)/H" +:+ str r +:+ "*100,1)".

(** The record written to row [r]: [data[r - 3]]. *)
Definition record_of_row (r : Z) : option (Z * string * string * string * Z * Z * Z) :=
  data !! Z.to_nat (r - 3).

(** Row [r] has the total formula in H, freshly styled but for the number
    format, and the record's three amounts in E, F and G. *)
Definition total_row_ok (wb : Workbook) (r : Z) : bool :=
  bool_decide (
    cell_at wb "EstimateData" (r, 8)
    = Some (with_number_format "#,##0"
              {| cell_value := VStr (total_formula r); cell_data_type := TYPE_FORMULA;
                 cell_font := DEFAULT_FONT; cell_fill := DEFAULT_EMPTY_FILL;
                 cell_border := DEFAULT_BORDER; cell_number_format := "General" |}))
  && match record_of_row r with
     | Some (_, _, _, _, base, role, commute) =>
         bool_decide (cell_value <$> cell_at wb "EstimateData" (r, 5) = Some (VInt base))
         && bool_decide (cell_value <$> cell_at wb "EstimateData" (r, 6) = Some (VInt role))
         && bool_decide (cell_value <$> cell_at wb "EstimateData" (r, 7) = Some (VInt commute))
     | None => false
     end.

(** Row [r] has the month-over-month formula in I, with format 0.0. *)
Definition mom_row_ok (wb : Workbook) (r : Z) : bool :=
  bool_decide (
    cell_at wb "EstimateData" (r, 9)
    = Some (with_number_format "0.0"
              {| cell_value := VStr (mom_formula r); cell_data_type := TYPE_FORMULA;
                 cell_font := DEFAULT_FONT; cell_fill := DEFAULT_EMPTY_FILL;
                 cell_border := DEFAULT_BORDER; cell_number_format := "General" |})).

(** The single capital letter of column [c] (A is column 1). *)
Definition chr_letter (c : Z) : string :=
  String (ascii_of_nat (Z.to_nat (c + 64))) EmptyString.

(** Column [c] of row 13 has the SUM formula over its own letter, bold,
    orange, with format #,##0. *)
Definition sum_cell_ok (wb : Workbook) (c : Z) : bool :=
  bool_decide (get_column_letter c = inr (chr_letter c))
  && bool_decide (nth_error ["E"; "F"; "G"; "H"] (Z.to_nat (c - 5)) = Some (chr_letter c))
  && bool_decide (
       cell_at wb "EstimateData" (13, c)
       = Some {| cell_value := VStr ("=SUM(" +:+ chr_letter c +:+ "3:" +:+ chr_letter c +:+ "12)");
                 cell_data_type := TYPE_FORMULA;
                 cell_font := bold_font; cell_fill := orange_fill;
                 cell_border := DEFAULT_BORDER; cell_number_format := "#,##0" |}).

(** The cell is a fresh cell with the gray fill and nothing else. *)
Definition gray_cell_ok (wb : Workbook) (r c : Z) : bool :=
  bool_decide (cell_at wb "EstimateData" (r, c) = Some (with_fill gray_fill new_cell)).

(** The world a run leaves behind, in which the generator can be run again. *)
Definition world_after (w : World) : World := (create_test_workbook w).2.

(** Row [d + 2] of DeptSummary has the [d]-th department and its three
    formulas. *)
Definition dept_row_ok (wb : Workbook) (d : Z) : bool :=
  let row := d + 2 in
  let formula text nf :=
    Some {| cell_value := VStr text; cell_data_type := TYPE_FORMULA;
            cell_font := DEFAULT_FONT; cell_fill := DEFAULT_EMPTY_FILL;
            cell_border := DEFAULT_BORDER; cell_number_format := nf |} in
  bool_decide (VStr <$> depts !! Z.to_nat d = cell_value <$> cell_at wb "DeptSummary" (row, 1))
  && bool_decide (is_Some (depts !! Z.to_nat d))
  && bool_decide (cell_at wb "DeptSummary" (row, 2)
                  = formula ("=COUNTIF(EstimateData!C:C,A" +:+ str row +:+ ")") "General")
  && bool_decide (cell_at wb "DeptSummary" (row, 3)
                  = formula ("=SUMIF(EstimateData!C:C,A" +:+ str row +:+ ",EstimateData!H:H)")
                      "#,##0")
  && bool_decide (cell_at wb "DeptSummary" (row, 4)
                  = formula ("=IF(B" +:+ str row +:+ ">0,C" +:+ str row +:+ "/B" +:+ str row
                             +:+ ",0)") "#,##0").

(** [os.path.join] on Windows, for a relative second component. *)
Definition windows_join (a b : string) : string := a +:+ "\" +:+ b.

(** A world that differs from [writable_world] in everything a run could
    consult: arguments, environment, location, existing files, earlier
    output. *)
Definition busy_world : World :=
  {| sys_argv := ["create_test_workbook.py"; "--out"; "x.xlsx"];
     os_environ := {[ "TZ" := "Asia/Tokyo" ]};
     module_dir := "C:\poc\screenshot-tool"; os_path_join := windows_join;
     open_error := λ _, None;
     fs_files := {[ "C:\poc\screenshot-tool\TestWorkbook_HR_Estimate.xlsx" := Workbook_new ]};
     stdout := ["earlier output"] |}.

(** The expression that the text of I(r) denotes. *)
Definition mom_expr (r : Z) : expr :=
  ERound
    (EBin Mul
       (EBin Div
          (EBin Sub (ERef (r, 8)) (EBin Mul (ERef (r, 8)) (ENum (98 # 100))))
          (ERef (r, 8)))
       (ENum (100 # 1)))
    (ENum (1 # 1)).

(** The text of I(r) parses to [mom_expr r]. *)
Definition mom_parse_ok (r : Z) : bool :=
  bool_decide (parse_formula (mom_formula r) = Some (mom_expr r)).

(** The numbers of row [r]: positive base, H(r) the sum of the three
    amounts, I(r) equal to 2, one rule covering I(r), which does not hold. *)
Definition mom_number_ok (wb : Workbook) (r : Z) : bool :=
  match sheet_named wb "EstimateData", record_of_row r with
  | Some sh, Some (_, _, _, _, base, role, commute) =>
      (0 <? base) && (0 <=? role) && (0 <=? commute)
      && match cell_number 2 sh (r, 8) with
         | Some h => Qeq_bool h (inject_Z (base + role + commute))
         | None => false
         end
      && match cell_number 3 sh (r, 9) with
         | Some v => Qeq_bool v 2
         | None => false
         end
      && bool_decide (rules_at sh (r, 9) = [CellIsRule "greaterThan" ["2"] red_fill red_font])
      && bool_decide (highlighted sh (r, 9) = Some false)
      && bool_decide (cell_value <$> ws_cells sh !! (r, 9) = Some (VStr (mom_formula r)))
  | _, _ => false
  end.

(** ** Further checks on the produced workbook *)

(** Every cell of the sheet titled [name] passes [p]. *)
Definition sheet_cells_all (wb : Workbook) (name : string) (p : Z * Z → Cell → bool) : bool :=
  match sheet_named wb name with
  | Some sh => forallb (λ kv, p kv.1 kv.2) (map_to_list (ws_cells sh))
  | None => false
  end.

(** The number of cells of the sheet titled [name]. *)
Definition sheet_cell_count (wb : Workbook) (name : string) : option nat :=
  (λ sh, size (ws_cells sh)) <$> sheet_named wb name.

(** A cell that holds the string [s] and has the given font, fill and
    border, with the number format untouched. *)
Definition text_cell (s : string) (f : Font) (p : PatternFill) (b : Border) : Cell :=
  {| cell_value := VStr s; cell_data_type := TYPE_STRING;
     cell_font := f; cell_fill := p; cell_border := b;
     cell_number_format := "General" |}.

(** Column [c] of row 1 of EstimateData holds the [c]-th header, bold, blue,
    with the thin bottom border. *)
Definition header_cell_ok (wb : Workbook) (c : Z) : bool :=
  match headers !! Z.to_nat (c - 1) with
  | Some h =>
      bool_decide (cell_at wb "EstimateData" (1, c)
                   = Some (text_cell h bold_font blue_fill thin_border))
  | None => false
  end.


(** A cell holding the int [n], unstyled but for the number format. *)
Definition int_cell (n : Z) (nf : string) : Cell :=
  {| cell_value := VInt n; cell_data_type := TYPE_NUMERIC;
     cell_font := DEFAULT_FONT; cell_fill := DEFAULT_EMPTY_FILL;
     cell_border := DEFAULT_BORDER; cell_number_format := nf |}.

(** Row [r] of EstimateData holds its record's literals in A..G and nothing
    in J. *)
Definition data_literals_ok (wb : Workbook) (r : Z) : bool :=
  match record_of_row r with
  | Some (no, name, dept, grade, base, role, commute) =>
      (no =? r - 2)
      && bool_decide (cell_at wb "EstimateData" (r, 1) = Some (int_cell no "General"))
      && bool_decide (cell_at wb "EstimateData" (r, 2)
                      = Some (text_cell name DEFAULT_FONT DEFAULT_EMPTY_FILL DEFAULT_BORDER))
      && bool_decide (cell_at wb "EstimateData" (r, 3)
                      = Some (text_cell dept DEFAULT_FONT DEFAULT_EMPTY_FILL DEFAULT_BORDER))
      && bool_decide (cell_at wb "EstimateData" (r, 4)
                      = Some (text_cell grade DEFAULT_FONT DEFAULT_EMPTY_FILL DEFAULT_BORDER))
      && bool_decide (cell_at wb "EstimateData" (r, 5) = Some (int_cell base "#,##0"))
      && bool_decide (cell_at wb "EstimateData" (r, 6) = Some (int_cell role "#,##0"))
      && bool_decide (cell_at wb "EstimateData" (r, 7) = Some (int_cell commute "#,##0"))
      && bool_decide (cell_at wb "EstimateData" (r, 10) = None)
  | None => false
  end.

(** Where EstimateData has cells: rows 1..20 but 14, columns A..J; the data
    rows stop at I and the total row spans D..H. *)
Definition estimate_extent (rc : Z * Z) : bool :=
  let '(r, c) := rc in
  (1 <=? r) && (r <=? 20) && (1 <=? c) && (c <=? 10) && negb (r =? 14)
  && (negb ((3 <=? r) && (r <=? 12)) || (c <=? 9))
  && (negb (r =? 13) || ((4 <=? c) && (c <=? 8))).

Definition dept_extent (rc : Z * Z) : bool :=
  let '(r, c) := rc in (1 <=? r) && (r <=? 5) && (1 <=? c) && (c <=? 4).

Definition settings_extent (rc : Z * Z) : bool :=
  let '(r, c) := rc in (1 <=? r) && (r <=? 6) && (1 <=? c) && (c <=? 2).






(** Column [c] of row 1 of DeptSummary holds the [c]-th header, bold and
    blue, without a border. *)
Definition dept_header_ok (wb : Workbook) (c : Z) : bool :=
  match dept_headers !! Z.to_nat (c - 1) with
  | Some h =>
      bool_decide (cell_at wb "DeptSummary" (1, c)
                   = Some (text_cell h bold_font blue_fill DEFAULT_BORDER))
  | None => false
  end.

(** The data type [Cell._bind_value] gives a value of the settings table. *)
Definition literal_type (v : value) : data_type :=
  match v with
  | VStr _ => TYPE_STRING
  | _ => TYPE_NUMERIC
  end.

(** Row [i + 2] of Settings holds the [i]-th (name, value) pair, unstyled. *)
Definition setting_row_ok (wb : Workbook) (i : Z) : bool :=
  match settings !! Z.to_nat i with
  | Some (name, val) =>
      bool_decide (cell_at wb "Settings" (i + 2, 1)
                   = Some (text_cell name DEFAULT_FONT DEFAULT_EMPTY_FILL DEFAULT_BORDER))
      && bool_decide (cell_at wb "Settings" (i + 2, 2)
                      = Some {| cell_value := val; cell_data_type := literal_type val;
                                cell_font := DEFAULT_FONT; cell_fill := DEFAULT_EMPTY_FILL;
                                cell_border := DEFAULT_BORDER;
                                cell_number_format := "General" |})
  | None => false
  end.

(** The rows of DeptSummary whose label in column A is the department in
    column C of row [r] of EstimateData. *)
Definition summary_rows_of (wb : Workbook) (r : Z) : list Z :=
  filter (λ k, cell_value <$> cell_at wb "DeptSummary" (k, 1)
               = cell_value <$> cell_at wb "EstimateData" (r, 3))
         (range 2 6).

Definition one_summary_row (wb : Workbook) (r : Z) : bool :=
  bool_decide (is_Some (cell_at wb "EstimateData" (r, 3)))
  && bool_decide (length (summary_rows_of wb r) = 1%nat).

(** The five lines of the summary, for an output path. *)
Definition summary_lines (path : string) : list string :=
  ["Test workbook created: " +:+ path;
   "  Sheet1: EstimateData (freeze panes, formulas, conditional format, format-only empty cells)";
   "  Sheet2: DeptSummary (cross-sheet formulas, named ranges)";
   "  Sheet3: Settings (master data)";
   "  Note: .xlsx format (no VBA). For VBA testing, use PS script on a PC with valid Excel license."].

(** ** Handles and sheet-local states *)

(** The cell a handle points at. *)
Definition cell_of (wb : Workbook) (c : CellRef) : option Cell :=
  wb_sheets wb !! c.1 ≫= λ sh, ws_cells sh !! c.2.

(** The workbook [wb] with the cells of its sheet [ws] (which is [sh] up to
    its cells) replaced by [m]. *)
Definition put_cells (ws : SheetRef) (sh : Worksheet) (m : gmap (Z * Z) Cell)
    (wb : Workbook) : Workbook :=
  set_sheets (<[ws := set_cells m sh]> (wb_sheets wb)) wb.

(** The value lookup of a defined name, [wb.defined_names[name]]. *)
Fixpoint dict_get {V : Type} (k : string) (d : list (string * V)) : option V :=
  match d with
  | [] => None
  | (k', v) :: t => if String.eqb k' k then Some v else dict_get k t
  end.

(** The last column that [fuel] letters can name: 26, 702, 18278, ... *)
Fixpoint last_column (fuel : nat) : Z :=
  match fuel with
  | O => 0
  | S n => 26 * last_column n + 26
  end.

(** The letter written for the remainder [r] is a capital that reads back
    as [r]. *)
Definition letter_ok (r : Z) : bool :=
  (Z.of_nat (nat_of_ascii (upper (ascii_of_nat (Z.to_nat (r + 64))))) - 64 =? r)
  && is_upper (ascii_of_nat (Z.to_nat (r + 64))).

(** * Properties *)

(** ** The monad never turns an exception into a result *)

Lemma bind_inr {A B : Type} (m : Build A) (f : A → Build B) wb r :
  (m ≫= f) wb = inr r → ∃ a wb', m wb = inr (a, wb') ∧ f a wb' = inr r.
Proof.
  unfold mbind, Build_bind. destruct (m wb) as [e | [a wb']]; [discriminate |].
  intros H. by exists a, wb'.
Qed.

Lemma bind_raise_l {A B : Type} (m : Build A) (f : A → Build B) wb e :
  m wb = inl e → (m ≫= f) wb = inl e.
Proof. unfold mbind, Build_bind. by intros ->. Qed.

Lemma bind_raise_r {A B : Type} (m : Build A) (f : A → Build B) wb a wb' e :
  m wb = inr (a, wb') → f a wb' = inl e → (m ≫= f) wb = inl e.
Proof. unfold mbind, Build_bind. by intros ->. Qed.

(** A loop that completes has completed every iteration; an iteration that
    raises ends the loop with that exception. *)
Lemma for_each_raise {A : Type} (body : A → Build ()) l1 x l2 wb wb' e :
  for_each l1 body wb = inr ((), wb') → body x wb' = inl e →
  for_each (l1 ++ x :: l2)%list body wb = inl e.
Proof.
  revert wb. induction l1 as [| y l1 IH]; intros wb H1 H2; simpl in *.
  - inversion H1; subst. by apply bind_raise_l.
  - apply bind_inr in H1 as ([] & wb1 & Hy & Hrest).
    unfold mbind, Build_bind. rewrite Hy. by apply IH.
Qed.

(** ** The build completes *)

Lemma populate_ok : populate Workbook_new = inr ((), fixture).
Proof. vm_cast_no_check (eq_refl (populate Workbook_new)). Qed.

(** From here on the build is used through [populate_ok] and the computed
    [fixture] only. *)
#[global] Opaque populate.

Lemma run_writable w :
  open_error w (OUTPUT_PATH w) = None →
  (create_test_workbook w).1 = inr () ∧ produced w = Some fixture.
Proof.
  intros H. unfold produced, create_test_workbook, Workbook_save.
  rewrite populate_ok, H. simpl. split; [done |]. apply lookup_insert_eq.
Qed.

Lemma run_denied w msg :
  open_error w (OUTPUT_PATH w) = Some msg →
  create_test_workbook w = (inl (OSError msg), w).
Proof.
  intros H. unfold create_test_workbook, Workbook_save.
  by rewrite populate_ok, H.
Qed.

Lemma produced_fixture w wb : produced w = Some wb → wb = fixture.
Proof.
  intros H. destruct (open_error w (OUTPUT_PATH w)) as [msg |] eqn:E.
  - unfold produced in H. by rewrite (run_denied w msg E) in H.
  - destruct (run_writable w E) as [_ H']. congruence.
Qed.

Lemma produced_writable : produced writable_world = Some fixture.
Proof. by apply run_writable. Qed.

(** Checking a decidable property on every element of a [range]. *)
Lemma range_forallb (p : Z → bool) (a b : Z) :
  forallb p (range a b) = true → ∀ r, a ≤ r < b → p r = true.
Proof.
  intros H r Hr. rewrite forallb_forall in H. apply H.
  apply list_elem_of_In, elem_of_seqZ. lia.
Qed.

(** ** The sheets *)

(** C1: the produced workbook has exactly three sheets, titled
    EstimateData, DeptSummary and Settings in this order; the first one is
    the active sheet of the fresh workbook (the one titled Sheet), renamed. *)
Theorem three_sheets_in_order (w : World) (wb : Workbook) :
  produced w = Some wb →
  sheetnames wb = ["EstimateData"; "DeptSummary"; "Settings"]
  ∧ length (wb_sheets wb) = 3%nat
  ∧ sheetnames Workbook_new = ["Sheet"]
  ∧ wb_active_sheet_index wb = wb_active_sheet_index Workbook_new
  ∧ ws_title <$> wb_sheets wb !! wb_active_sheet_index wb = Some "EstimateData".
Proof.
  intros ->%produced_fixture. vm_compute. by repeat split.
Qed.

Lemma three_sheets_in_order_witness :
  sheetnames fixture = ["EstimateData"; "DeptSummary"; "Settings"].
Proof.
  exact (proj1 (three_sheets_in_order writable_world fixture produced_writable)).
Defined.

(** ** EstimateData: the data rows *)

(** C2: for every data row r in 3..12, cell H(r) of EstimateData holds
    exactly the formula text =E{r}+F{r}+G{r}, stored as a formula, with number
    format #,##0; E(r), F(r) and G(r) hold the base salary, role allowance
    and commute allowance of the row's record. *)
Theorem total_column_formula (w : World) (wb : Workbook) (r : Z) :
  produced w = Some wb → 3 ≤ r ≤ 12 →
  (cell_value <$> cell_at wb "EstimateData" (r, 8)
     = Some (VStr ("=E" +:+ str r +:+ "+F" +:+ str r +:+ "+G" +:+ str r)))
  ∧ cell_data_type <$> cell_at wb "EstimateData" (r, 8) = Some TYPE_FORMULA
  ∧ cell_number_format <$> cell_at wb "EstimateData" (r, 8) = Some "#,##0"
  ∧ ∃ no name dept grade base role commute,
      data !! Z.to_nat (r - 3) = Some (no, name, dept, grade, base, role, commute)
      ∧ cell_value <$> cell_at wb "EstimateData" (r, 5) = Some (VInt base)
      ∧ cell_value <$> cell_at wb "EstimateData" (r, 6) = Some (VInt role)
      ∧ cell_value <$> cell_at wb "EstimateData" (r, 7) = Some (VInt commute).
Proof.
  intros ->%produced_fixture Hr.
  assert (H : total_row_ok fixture r = true).
  { apply (range_forallb (total_row_ok fixture) 3 13); [by vm_compute | lia]. }
  unfold total_row_ok, record_of_row in H.
  apply andb_prop in H as [Hh Hd]. apply bool_decide_eq_true in Hh.
  rewrite Hh. repeat split; try done.
  destruct (data !! Z.to_nat (r - 3)) as [[[[[[[no name] dept] grade] base] role] commute] |];
    [| discriminate].
  apply andb_prop in Hd as [Hd Hg]. apply andb_prop in Hd as [He Hf].
  apply bool_decide_eq_true in He, Hf, Hg.
  by exists no, name, dept, grade, base, role, commute.
Qed.

Lemma total_column_formula_witness :
  cell_value <$> cell_at fixture "EstimateData" (7, 8) = Some (VStr "=E7+F7+G7").
Proof.
  refine (proj1 (total_column_formula writable_world fixture 7 produced_writable _)). lia.
Defined.

(** C3: for every data row r in 3..12, cell I(r) of EstimateData holds
    exactly the formula text =ROUND((H{r}-H{r}*0.98)/H{r}*100,1), stored as a
    formula, with number format 0.0. *)
Theorem mom_column_formula (w : World) (wb : Workbook) (r : Z) :
  produced w = Some wb → 3 ≤ r ≤ 12 →
  (cell_value <$> cell_at wb "EstimateData" (r, 9)
     = Some (VStr ("=ROUND((H" +:+ str r +:+ "-H" +:+ str r +:+ "*0.98)/H"
                   +:+ str r +:+ "*100,1)")))
  ∧ cell_data_type <$> cell_at wb "EstimateData" (r, 9) = Some TYPE_FORMULA
  ∧ cell_number_format <$> cell_at wb "EstimateData" (r, 9) = Some "0.0".
Proof.
  intros ->%produced_fixture Hr.
  assert (H : mom_row_ok fixture r = true).
  { apply (range_forallb (mom_row_ok fixture) 3 13); [by vm_compute | lia]. }
  apply bool_decide_eq_true in H. by rewrite H.
Qed.

Lemma mom_column_formula_witness :
  cell_value <$> cell_at fixture "EstimateData" (12, 9)
  = Some (VStr "=ROUND((H12-H12*0.98)/H12*100,1)").
Proof.
  refine (proj1 (mom_column_formula writable_world fixture 12 produced_writable _)). lia.
Defined.

(** ** EstimateData: the total row and the styled empty block *)

(** C4: in row 13 of EstimateData, column 4 holds the bold label Total, and
    every column c in 5..8 holds exactly =SUM(L3:L12), L the letter of column
    c (E, F, G, H), stored as a formula, bold, orange-filled, with number
    format #,##0. *)
Theorem total_row_sums (w : World) (wb : Workbook) (c : Z) :
  produced w = Some wb → 5 ≤ c ≤ 8 →
  (cell_value <$> cell_at wb "EstimateData" (13, 4) = Some (VStr "Total"))
  ∧ (font_bold ∘ cell_font <$> cell_at wb "EstimateData" (13, 4) = Some true)
  ∧ ∃ L,
      get_column_letter c = inr L
      ∧ nth_error ["E"; "F"; "G"; "H"] (Z.to_nat (c - 5)) = Some L
      ∧ cell_value <$> cell_at wb "EstimateData" (13, c)
        = Some (VStr ("=SUM(" +:+ L +:+ "3:" +:+ L +:+ "12)"))
      ∧ cell_data_type <$> cell_at wb "EstimateData" (13, c) = Some TYPE_FORMULA
      ∧ font_bold ∘ cell_font <$> cell_at wb "EstimateData" (13, c) = Some true
      ∧ cell_fill <$> cell_at wb "EstimateData" (13, c) = Some orange_fill
      ∧ orange_fill
        = {| fill_type := Some "solid"; start_color := "00FCE4D6"; end_color := "00FCE4D6" |}
      ∧ cell_number_format <$> cell_at wb "EstimateData" (13, c) = Some "#,##0".
Proof.
  intros ->%produced_fixture Hc.
  split; [by vm_compute |]. split; [by vm_compute |].
  assert (H : sum_cell_ok fixture c = true).
  { apply (range_forallb (sum_cell_ok fixture) 5 9); [by vm_compute | lia]. }
  apply andb_prop in H as [H Hcell]. apply andb_prop in H as [HL Hn].
  apply bool_decide_eq_true in HL, Hn, Hcell.
  exists (chr_letter c). rewrite Hcell. by repeat split.
Qed.

Lemma total_row_sums_witness :
  cell_value <$> cell_at fixture "EstimateData" (13, 4) = Some (VStr "Total").
Proof.
  refine (proj1 (total_row_sums writable_world fixture 6 produced_writable _)). lia.
Defined.

Lemma world_after_writable w :
  open_error w (OUTPUT_PATH w) = None →
  open_error (world_after w) (OUTPUT_PATH (world_after w)) = None.
Proof.
  intros H. unfold world_after, create_test_workbook, Workbook_save.
  by rewrite populate_ok, H.
Qed.

Lemma produced_inv w wb : produced w = Some wb → open_error w (OUTPUT_PATH w) = None.
Proof.
  intros H. destruct (open_error w (OUTPUT_PATH w)) as [msg |] eqn:E; [| done].
  unfold produced in H. by rewrite (run_denied w msg E) in H.
Qed.

(** C5: every cell of EstimateData in rows 15..20 and columns 1..10 exists,
    carries the gray fill (which differs from the default fill) and holds no
    value; running the generator again in the world left by the first run
    writes a workbook with the very same cell there. *)
Theorem styled_empty_block (w : World) (wb : Workbook) (r c : Z) :
  produced w = Some wb → 15 ≤ r ≤ 20 → 1 ≤ c ≤ 10 →
  (∃ x, cell_at wb "EstimateData" (r, c) = Some x
        ∧ cell_fill x = gray_fill
        ∧ cell_fill x ≠ DEFAULT_EMPTY_FILL
        ∧ fill_type (cell_fill x) = Some "solid"
        ∧ start_color (cell_fill x) = "00F2F2F2"
        ∧ cell_value x = VNone)
  ∧ ∃ wb', produced (world_after w) = Some wb'
           ∧ cell_at wb' "EstimateData" (r, c) = cell_at wb "EstimateData" (r, c).
Proof.
  intros Hp Hr Hc.
  pose proof (produced_inv _ _ Hp) as Hw.
  apply produced_fixture in Hp as ->.
  assert (H : gray_cell_ok fixture r c = true).
  { apply (range_forallb (gray_cell_ok fixture r) 1 11); [| lia].
    apply (range_forallb (λ r, forallb (gray_cell_ok fixture r) (range 1 11)) 15 21);
      [by vm_compute | lia]. }
  apply bool_decide_eq_true in H. split.
  - exists (with_fill gray_fill new_cell). by repeat split.
  - exists fixture. split; [| done].
    by apply run_writable, world_after_writable.
Qed.

Lemma styled_empty_block_witness :
  ∃ x, cell_at fixture "EstimateData" (17, 10) = Some x
       ∧ cell_fill x = gray_fill
       ∧ cell_fill x ≠ DEFAULT_EMPTY_FILL
       ∧ fill_type (cell_fill x) = Some "solid"
       ∧ start_color (cell_fill x) = "00F2F2F2"
       ∧ cell_value x = VNone.
Proof.
  refine (proj1 (styled_empty_block writable_world fixture 17 10 produced_writable _ _)); lia.
Defined.

(** ** DeptSummary *)

(** C6: for every d in 0..3, row d+2 of DeptSummary has in column A the d-th
    of Sales, HR, Tech, Admin, in column B exactly
    =COUNTIF(EstimateData!C:C,A{row}), in column C exactly
    =SUMIF(EstimateData!C:C,A{row},EstimateData!H:H) with format #,##0, and in
    column D exactly =IF(B{row}>0,C{row}/B{row},0) with format #,##0. *)
Theorem dept_summary_rows (w : World) (wb : Workbook) (d : Z) :
  produced w = Some wb → 0 ≤ d ≤ 3 →
  let row := d + 2 in
  (∃ dept, ["Sales"; "HR"; "Tech"; "Admin"] !! Z.to_nat d = Some dept
           ∧ cell_value <$> cell_at wb "DeptSummary" (row, 1) = Some (VStr dept))
  ∧ (cell_value <$> cell_at wb "DeptSummary" (row, 2)
       = Some (VStr ("=COUNTIF(EstimateData!C:C,A" +:+ str row +:+ ")")))
  ∧ (cell_value <$> cell_at wb "DeptSummary" (row, 3)
       = Some (VStr ("=SUMIF(EstimateData!C:C,A" +:+ str row +:+ ",EstimateData!H:H)")))
  ∧ cell_number_format <$> cell_at wb "DeptSummary" (row, 3) = Some "#,##0"
  ∧ (cell_value <$> cell_at wb "DeptSummary" (row, 4)
       = Some (VStr ("=IF(B" +:+ str row +:+ ">0,C" +:+ str row +:+ "/B" +:+ str row +:+ ",0)")))
  ∧ cell_number_format <$> cell_at wb "DeptSummary" (row, 4) = Some "#,##0"
  ∧ (∀ c, 2 ≤ c ≤ 4 → cell_data_type <$> cell_at wb "DeptSummary" (row, c) = Some TYPE_FORMULA).
Proof.
  intros ->%produced_fixture Hd row.
  assert (H : dept_row_ok fixture d = true).
  { apply (range_forallb (dept_row_ok fixture) 0 4); [by vm_compute | lia]. }
  unfold dept_row_ok in H. fold row in H.
  apply andb_prop in H as [H HD]. apply andb_prop in H as [H HC].
  apply andb_prop in H as [H HB]. apply andb_prop in H as [HA Hsome].
  apply bool_decide_eq_true in HA, Hsome, HB, HC, HD.
  rewrite HB, HC, HD. repeat split; try done.
  - destruct Hsome as [dept Hdept]. exists dept. split; [exact Hdept |].
    rewrite <- HA. by rewrite Hdept.
  - intros c Hc. assert (c = 2 ∨ c = 3 ∨ c = 4) as [-> | [-> | ->]] by lia.
    + by rewrite HB.
    + by rewrite HC.
    + by rewrite HD.
Qed.

Lemma dept_summary_rows_witness :
  cell_value <$> cell_at fixture "DeptSummary" (4, 4) = Some (VStr "=IF(B4>0,C4/B4,0)").
Proof.
  refine (proj1 (proj2 (proj2 (proj2 (proj2
            (dept_summary_rows writable_world fixture 2 produced_writable _)))))). lia.
Defined.

(** ** Named ranges *)

(** C7: the produced workbook registers exactly two defined names, both
    workbook-scoped: DeptMaster, whose reference denotes the cells A2:A5 of
    the sheet DeptSummary, and TotalCost, whose reference denotes C2:C5 of
    that sheet.  The stored reference texts are the absolute forms
    DeptSummary!$A$2:$A$5 and DeptSummary!$C$2:$C$5. *)
Theorem two_named_ranges (w : World) (wb : Workbook) :
  produced w = Some wb →
  wb_defined_names wb
  = [("DeptMaster", {| dn_name := "DeptMaster"; dn_attr_text := "DeptSummary!$A$2:$A$5";
                       dn_localSheetId := None |});
     ("TotalCost", {| dn_name := "TotalCost"; dn_attr_text := "DeptSummary!$C$2:$C$5";
                      dn_localSheetId := None |})]
  ∧ length (wb_defined_names wb) = 2%nat
  ∧ destination "DeptSummary!$A$2:$A$5"
    = Some ("DeptSummary", {| rng_first := (2, 1); rng_last := (5, 1) |})
  ∧ destination "DeptSummary!$A$2:$A$5" = destination "DeptSummary!A2:A5"
  ∧ destination "DeptSummary!$C$2:$C$5"
    = Some ("DeptSummary", {| rng_first := (2, 3); rng_last := (5, 3) |})
  ∧ destination "DeptSummary!$C$2:$C$5" = destination "DeptSummary!C2:C5"
  ∧ is_Some (sheet_named wb "DeptSummary").
Proof.
  intros ->%produced_fixture.
  repeat split; try by vm_compute.
  vm_compute. by eexists.
Qed.

Lemma two_named_ranges_witness : length (wb_defined_names fixture) = 2%nat.
Proof.
  exact (proj1 (proj2 (two_named_ranges writable_world fixture produced_writable))).
Defined.

(** ** Determinism *)

Lemma produced_busy : produced busy_world = Some fixture.
Proof. by apply run_writable. Qed.

(** C8: any two runs, in whatever worlds (arguments, environment, script
    location, files present), that get as far as writing the file write the
    same workbook model: same sheets with the same cells, styles, formulas,
    conditional formats, freeze panes and column widths, and the same
    defined names. *)
Theorem two_runs_same_workbook (w1 w2 : World) (wb1 wb2 : Workbook) :
  produced w1 = Some wb1 → produced w2 = Some wb2 →
  wb1 = wb2
  ∧ wb_sheets wb1 = wb_sheets wb2
  ∧ wb_defined_names wb1 = wb_defined_names wb2
  ∧ ∀ name, sheet_named wb1 name = sheet_named wb2 name.
Proof.
  intros ->%produced_fixture ->%produced_fixture. by repeat split.
Qed.

Lemma two_runs_same_workbook_witness :
  produced writable_world = Some fixture ∧ produced busy_world = Some fixture
  ∧ fixture = fixture.
Proof.
  split; [exact produced_writable |]. split; [exact produced_busy |].
  exact (proj1 (two_runs_same_workbook writable_world busy_world fixture fixture
                  produced_writable produced_busy)).
Defined.

(** ** Exceptions *)

(** C9: nothing is caught.  In the monad, an exception of a step is the
    exception of the sequence, a sequence that returns has had every step
    return, and an iteration of a loop that raises ends the loop with that
    exception.  For the whole function: the run raises exactly when
    creating the output file fails, the exception is the one [wb.save]
    raised, and then nothing has been written or printed; when the file can
    be created the run returns. *)
Theorem errors_propagate (w : World) :
  (∀ (A B : Type) (m : Build A) (f : A → Build B) wb e,
     m wb = inl e → (m ≫= f) wb = inl e)
  ∧ (∀ (A B : Type) (m : Build A) (f : A → Build B) wb a wb' e,
       m wb = inr (a, wb') → f a wb' = inl e → (m ≫= f) wb = inl e)
  ∧ (∀ (A B : Type) (m : Build A) (f : A → Build B) wb r,
       (m ≫= f) wb = inr r → ∃ a wb', m wb = inr (a, wb') ∧ f a wb' = inr r)
  ∧ (∀ (A : Type) (body : A → Build ()) l1 x l2 wb wb' e,
       for_each l1 body wb = inr ((), wb') → body x wb' = inl e →
       for_each (l1 ++ x :: l2)%list body wb = inl e)
  ∧ (∀ e, (create_test_workbook w).1 = inl e
          ↔ Workbook_save fixture (OUTPUT_PATH w) w = inl e)
  ∧ (∀ e, (create_test_workbook w).1 = inl e
          ↔ ∃ msg, open_error w (OUTPUT_PATH w) = Some msg ∧ e = OSError msg)
  ∧ ((create_test_workbook w).1 = inr () ↔ open_error w (OUTPUT_PATH w) = None)
  ∧ (∀ e, (create_test_workbook w).1 = inl e
          → (create_test_workbook w).2 = w ∧ produced w = None)
  ∧ ((main w).1 = 0 ↔ open_error w (OUTPUT_PATH w) = None)
  ∧ ((main w).1 = 1 ↔ is_Some (open_error w (OUTPUT_PATH w))).
Proof.
  split; [intros; by eapply bind_raise_l |].
  split; [intros; by eapply bind_raise_r |].
  split; [intros; by eapply bind_inr |].
  split; [intros; by eapply for_each_raise |].
  destruct (open_error w (OUTPUT_PATH w)) as [msg |] eqn:E.
  - pose proof (run_denied w msg E) as R.
    unfold produced, main, Workbook_save. rewrite R, E. simpl. clear R E.
    repeat split; try done.
    + by intros [= <-].
    + by intros [= <-].
    + intros [= <-]. by exists msg.
    + by intros (? & [= <-] & ->).
  - pose proof (run_writable w E) as [R _].
    unfold main, Workbook_save.
    destruct (create_test_workbook w) as [res w']. simpl in R. subst res.
    rewrite E. clear E.
    repeat split; try done.
    by intros (? & ? & _).
Qed.

Lemma errors_propagate_witness :
  (create_test_workbook readonly_world).1
  = inl (OSError "[Errno 13] Permission denied: /mnt/ro/TestWorkbook_HR_Estimate.xlsx")
  ∧ (main readonly_world).1 = 1.
Proof.
  destruct (errors_propagate readonly_world) as (_ & _ & _ & _ & _ & He & _ & _ & _ & Hm).
  split.
  - apply He. eexists. split; reflexivity.
  - apply Hm. eexists. reflexivity.
Defined.

Example readonly_run_raises :
  create_test_workbook readonly_world
  = (inl (OSError "[Errno 13] Permission denied: /mnt/ro/TestWorkbook_HR_Estimate.xlsx"),
     readonly_world).
Proof. by apply run_denied. Qed.

Example writable_run_prints :
  (create_test_workbook writable_world).1 = inr ()
  ∧ length (stdout (world_after writable_world)) = 5%nat
  ∧ head (stdout (world_after writable_world))
    = Some "Test workbook created: /repo/screenshot-tool/TestWorkbook_HR_Estimate.xlsx".
Proof.
  split; [by apply run_writable |].
  unfold world_after, create_test_workbook. by rewrite populate_ok.
Qed.

(** ** The month-over-month column comes to 2 *)

Lemma ROUND_comp (x y : Q) (k : Z) : (x == y)%Q → (ROUND x k == ROUND y k)%Q.
Proof.
  intros H. unfold ROUND.
  destruct (Qle_bool 0 x) eqn:Hx, (Qle_bool 0 y) eqn:Hy.
  - by rewrite H.
  - apply Qle_bool_iff in Hx. rewrite H in Hx. apply Qle_bool_iff in Hx. congruence.
  - apply Qle_bool_iff in Hy. rewrite <- H in Hy. apply Qle_bool_iff in Hy. congruence.
  - by rewrite H.
Qed.

(** (h - 0.98 h) / h * 100 is 2 for every nonzero h. *)
Lemma mom_ratio (h : Q) : ¬ (h == 0)%Q → ((h - h * (98 # 100)) / h * (100 # 1) == 2)%Q.
Proof. intros Hh. field. exact Hh. Qed.

Lemma eval_mom_expr (lookup : Z * Z → option Q) (r : Z) (h : Q) :
  lookup (r, 8) = Some h → ¬ (h == 0)%Q →
  ∃ v, eval_expr lookup (mom_expr r) = Some v ∧ (v == 2)%Q.
Proof.
  intros Hl Hh. unfold mom_expr. cbn [eval_expr]. rewrite Hl.
  destruct (Qeq_bool h 0) eqn:E; [by apply Qeq_bool_iff in E |].
  eexists. split; [reflexivity |].
  rewrite (ROUND_comp _ 2 _ (mom_ratio h Hh)). by vm_compute.
Qed.

Lemma threshold_two : parse_operand "2" ≫= eval_expr (λ _, None) = Some (2 # 1).
Proof. by vm_compute. Qed.

(** C10: for every data row r in 3..12 of the produced workbook, the text in
    I(r) denotes ROUND((H(r) - H(r)*0.98) / H(r) * 100, 1), which in exact
    rational arithmetic comes to 2 whatever nonzero number H(r) is; the
    row's base salary is positive and its allowances are not negative, so
    H(r) = base + role + commute is positive and I(r) comes to 2; the only
    conditional-format rule covering I(r) is the greaterThan 2 rule of
    I3:I12, and it does not hold of I(r). *)
Theorem mom_is_two_and_never_flagged (w : World) (wb : Workbook) (r : Z) :
  produced w = Some wb → 3 ≤ r ≤ 12 →
  ∃ sh,
    sheet_named wb "EstimateData" = Some sh
    ∧ (∃ e, cell_value <$> ws_cells sh !! (r, 9) = Some (VStr (mom_formula r))
            ∧ parse_formula (mom_formula r) = Some e
            ∧ ∀ (lookup : Z * Z → option Q) (h : Q),
                lookup (r, 8) = Some h → ¬ (h == 0)%Q →
                ∃ v, eval_expr lookup e = Some v ∧ (v == 2)%Q)
    ∧ (∃ no name dept grade base role commute h,
         data !! Z.to_nat (r - 3) = Some (no, name, dept, grade, base, role, commute)
         ∧ 0 < base ∧ 0 ≤ role ∧ 0 ≤ commute
         ∧ cell_number 2 sh (r, 8) = Some h
         ∧ (h == inject_Z (base + role + commute))%Q
         ∧ (0 < h)%Q)
    ∧ (∃ v, cell_number 3 sh (r, 9) = Some v ∧ (v == 2)%Q)
    ∧ rules_at sh (r, 9) = [CellIsRule "greaterThan" ["2"] red_fill red_font]
    ∧ (∀ v, (v == 2)%Q →
            rule_holds (CellIsRule "greaterThan" ["2"] red_fill red_font) v = Some false)
    ∧ highlighted sh (r, 9) = Some false.
Proof.
  intros ->%produced_fixture Hr.
  assert (Hp : mom_parse_ok r = true).
  { apply (range_forallb mom_parse_ok 3 13); [by vm_compute | lia]. }
  assert (Hn : mom_number_ok fixture r = true).
  { apply (range_forallb (mom_number_ok fixture) 3 13); [by vm_compute | lia]. }
  apply bool_decide_eq_true in Hp.
  unfold mom_number_ok, record_of_row in Hn.
  destruct (sheet_named fixture "EstimateData") as [sh |]; [| discriminate].
  destruct (data !! Z.to_nat (r - 3))
    as [[[[[[[no name] dept] grade] base] role] commute] |]; [| discriminate].
  repeat match type of Hn with
         | _ && _ = true => let X := fresh "X" in apply andb_prop in Hn as [Hn X]
         end.
  destruct (cell_number 2 sh (r, 8)) as [h |] eqn:Eh; [| discriminate].
  destruct (cell_number 3 sh (r, 9)) as [v |] eqn:Ev; [| discriminate].
  apply Qeq_bool_iff in X2, X3.
  apply bool_decide_eq_true in X, X0, X1.
  apply Z.ltb_lt in Hn. apply Z.leb_le in X5, X4.
  exists sh. split; [done |]. split; [| split; [| split; [| split; [| split]]]].
  - exists (mom_expr r). split; [done |]. split; [done |].
    intros lookup h' Hl Hh. by apply eval_mom_expr with (h := h').
  - exists no, name, dept, grade, base, role, commute, h.
    repeat split; try done.
    rewrite X3. change 0%Q with (inject_Z 0). rewrite <- Zlt_Qlt. lia.
  - by exists v.
  - done.
  - intros v' Hv. unfold rule_holds. cbn. rewrite threshold_two.
    replace (Qle_bool v' (2 # 1)) with true; [done |].
    symmetry. apply Qle_bool_iff. rewrite Hv. apply Qle_refl.
  - done.
Qed.

Lemma mom_is_two_and_never_flagged_witness :
  ∃ sh, sheet_named fixture "EstimateData" = Some sh
        ∧ highlighted sh (3, 9) = Some false.
Proof.
  destruct (mom_is_two_and_never_flagged writable_world fixture 3 produced_writable)
    as (sh & Hsh & _ & _ & _ & _ & _ & Hh); [lia |].
  by exists sh.
Defined.

(** * Further properties *)

(** ** The rest of the three sheets *)

Lemma sheet_cells_all_spec (wb : Workbook) (name : string) (p : Z * Z → Cell → bool) :
  sheet_cells_all wb name p = true →
  ∀ rc x, cell_at wb name rc = Some x → p rc x = true.
Proof.
  unfold sheet_cells_all, cell_at. intros H rc x Hx.
  destruct (sheet_named wb name) as [sh |]; [| discriminate]. simpl in Hx.
  rewrite forallb_forall in H.
  apply (H (rc, x)), list_elem_of_In, elem_of_map_to_list, Hx.
Qed.

(** X1: row 1 of EstimateData holds the ten headers in order, each as a
    string, bold, with the light-blue fill and a thin bottom border. *)
Theorem header_row (w : World) (wb : Workbook) (c : Z) :
  produced w = Some wb → 1 ≤ c ≤ 10 →
  ∃ h x,
    headers !! Z.to_nat (c - 1) = Some h
    ∧ cell_at wb "EstimateData" (1, c) = Some x
    ∧ cell_value x = VStr h
    ∧ cell_data_type x = TYPE_STRING
    ∧ font_bold (cell_font x) = true
    ∧ cell_fill x
      = {| fill_type := Some "solid"; start_color := "00D9E1F2"; end_color := "00D9E1F2" |}
    ∧ side_style (border_bottom (cell_border x)) = Some "thin"
    ∧ border_top (cell_border x) = no_side
    ∧ border_left (cell_border x) = no_side
    ∧ border_right (cell_border x) = no_side.
Proof.
  intros ->%produced_fixture Hc.
  assert (H : header_cell_ok fixture c = true).
  { apply (range_forallb (header_cell_ok fixture) 1 11); [by vm_compute | lia]. }
  unfold header_cell_ok in H.
  destruct (headers !! Z.to_nat (c - 1)) as [h |]; [| discriminate].
  apply bool_decide_eq_true in H.
  exists h, (text_cell h bold_font blue_fill thin_border). by repeat split.
Qed.

Lemma header_row_witness :
  ∃ h x, headers !! Z.to_nat (8 - 1) = Some h
         ∧ cell_at fixture "EstimateData" (1, 8) = Some x ∧ cell_value x = VStr h.
Proof.
  destruct (header_row writable_world fixture 8 produced_writable) as (h & x & H1 & H2 & H3 & _);
    [lia |].
  by exists h, x.
Defined.



(** X3: each data row r in 3..12 of EstimateData holds its record's
    literals: the sequence number r - 2 in A as an int, name, department
    and grade in B..D as strings, and base salary, role allowance and
    commute allowance in E..G as ints with number format #,##0.  Column J
    (Note) has no cell in the data rows. *)
Theorem data_row_literals (w : World) (wb : Workbook) (r : Z) :
  produced w = Some wb → 3 ≤ r ≤ 12 →
  ∃ name dept grade base role commute,
    data !! Z.to_nat (r - 3) = Some (r - 2, name, dept, grade, base, role, commute)
    ∧ cell_at wb "EstimateData" (r, 1) = Some (int_cell (r - 2) "General")
    ∧ cell_value <$> cell_at wb "EstimateData" (r, 2) = Some (VStr name)
    ∧ cell_value <$> cell_at wb "EstimateData" (r, 3) = Some (VStr dept)
    ∧ cell_value <$> cell_at wb "EstimateData" (r, 4) = Some (VStr grade)
    ∧ (∀ c, 2 ≤ c ≤ 4 → cell_data_type <$> cell_at wb "EstimateData" (r, c) = Some TYPE_STRING)
    ∧ cell_at wb "EstimateData" (r, 5) = Some (int_cell base "#,##0")
    ∧ cell_at wb "EstimateData" (r, 6) = Some (int_cell role "#,##0")
    ∧ cell_at wb "EstimateData" (r, 7) = Some (int_cell commute "#,##0")
    ∧ cell_at wb "EstimateData" (r, 10) = None.
Proof.
  intros ->%produced_fixture Hr.
  assert (H : data_literals_ok fixture r = true).
  { apply (range_forallb (data_literals_ok fixture) 3 13); [by vm_compute | lia]. }
  unfold data_literals_ok, record_of_row in H.
  destruct (data !! Z.to_nat (r - 3))
    as [[[[[[[no name] dept] grade] base] role] commute] |]; [| discriminate].
  repeat match type of H with
         | _ && _ = true => let X := fresh "X" in apply andb_prop in H as [H X]
         end.
  apply Z.eqb_eq in H. subst no.
  apply bool_decide_eq_true in X, X0, X1, X2, X3, X4, X5, X6.
  exists name, dept, grade, base, role, commute.
  rewrite X, X0, X1, X2, X3, X4, X5, X6. repeat split; try done.
  intros c Hc. assert (c = 2 ∨ c = 3 ∨ c = 4) as [-> | [-> | ->]] by lia.
  - by rewrite X5.
  - by rewrite X4.
  - by rewrite X3.
Qed.

Lemma data_row_literals_witness :
  cell_at fixture "EstimateData" (12, 1) = Some (int_cell 10 "General").
Proof.
  destruct (data_row_literals writable_world fixture 12 produced_writable)
    as (? & ? & ? & ? & ? & ? & _ & H & _); [lia |].
  exact H.
Defined.

(** X4: the produced sheets have no cell outside their tables.
    EstimateData has 175 cells, all within rows 1..20 and columns A..J, none
    in row 14, none in column J of the data rows, and in row 13 only D..H;
    DeptSummary has 20 cells within A1:D5; Settings has 12 within A1:B6. *)
Theorem used_ranges (w : World) (wb : Workbook) :
  produced w = Some wb →
  (∀ r c x, cell_at wb "EstimateData" (r, c) = Some x →
     1 ≤ r ≤ 20 ∧ 1 ≤ c ≤ 10 ∧ r ≠ 14
     ∧ (3 ≤ r ≤ 12 → c ≤ 9) ∧ (r = 13 → 4 ≤ c ≤ 8))
  ∧ (∀ r c x, cell_at wb "DeptSummary" (r, c) = Some x → 1 ≤ r ≤ 5 ∧ 1 ≤ c ≤ 4)
  ∧ (∀ r c x, cell_at wb "Settings" (r, c) = Some x → 1 ≤ r ≤ 6 ∧ 1 ≤ c ≤ 2)
  ∧ sheet_cell_count wb "EstimateData" = Some 175%nat
  ∧ sheet_cell_count wb "DeptSummary" = Some 20%nat
  ∧ sheet_cell_count wb "Settings" = Some 12%nat.
Proof.
  intros ->%produced_fixture.
  split; [| split; [| split; [| by vm_compute]]].
  - intros r c x Hx.
    apply (sheet_cells_all_spec fixture "EstimateData" (λ rc _, estimate_extent rc)) in Hx;
      [| by vm_compute].
    unfold estimate_extent in Hx. simpl in Hx.
    destruct (Z.eqb_spec r 14), (Z.eqb_spec r 13); simpl in Hx;
      rewrite ?andb_true_r, ?andb_false_r in Hx; try discriminate.
    + subst r. lia.
    + destruct (Z.leb_spec 3 r), (Z.leb_spec r 12); simpl in Hx; lia.
  - intros r c x Hx.
    apply (sheet_cells_all_spec fixture "DeptSummary" (λ rc _, dept_extent rc)) in Hx;
      [| by vm_compute].
    unfold dept_extent in Hx. lia.
  - intros r c x Hx.
    apply (sheet_cells_all_spec fixture "Settings" (λ rc _, settings_extent rc)) in Hx;
      [| by vm_compute].
    unfold settings_extent in Hx. lia.
Qed.

Lemma used_ranges_witness : sheet_cell_count fixture "EstimateData" = Some 175%nat.
Proof.
  exact (proj1 (proj2 (proj2 (proj2 (used_ranges writable_world fixture produced_writable))))).
Defined.



(** X6: EstimateData has exactly one conditional-format entry: on the range
    I3:I12, which covers column I of the data rows and nothing else, one
    cellIs rule with operator greaterThan and formula 2 that applies a red
    fill and a dark-red font.  Its frozen pane is anchored at A3, the first
    cell of row 3.  The other two sheets have neither. *)
Theorem conditional_format_and_freeze (w : World) (wb : Workbook) :
  produced w = Some wb →
  ws_conditional_formatting <$> sheet_named wb "EstimateData"
  = Some [("I3:I12",
           [{| rule_type := "cellIs"; rule_operator := "greaterThan"; rule_formula := ["2"];
               rule_dxf_fill := Some {| fill_type := Some "solid"; start_color := "00FC9090";
                                        end_color := "00FC9090" |};
               rule_dxf_font := Some {| font_bold := false; font_color := Some "00990000" |} |}])]
  ∧ (∃ b, range_boundaries "I3:I12" = Some b
          ∧ ∀ r c, in_range b (r, c) = true ↔ 3 ≤ r ≤ 12 ∧ c = 9)
  ∧ ws_freeze_panes <$> sheet_named wb "EstimateData" = Some (Some "A3")
  ∧ coordinate_to_tuple "A3" = Some (3, 1)
  ∧ ws_conditional_formatting <$> sheet_named wb "DeptSummary" = Some []
  ∧ ws_conditional_formatting <$> sheet_named wb "Settings" = Some []
  ∧ ws_freeze_panes <$> sheet_named wb "DeptSummary" = Some None
  ∧ ws_freeze_panes <$> sheet_named wb "Settings" = Some None.
Proof.
  intros ->%produced_fixture.
  split; [by vm_compute |]. split; [| by vm_compute].
  exists {| rng_first := (3, 9); rng_last := (12, 9) |}. split; [by vm_compute |].
  intros r c. unfold in_range. simpl. lia.
Qed.

Lemma conditional_format_and_freeze_witness :
  ws_freeze_panes <$> sheet_named fixture "EstimateData" = Some (Some "A3").
Proof.
  exact (proj1 (proj2 (proj2
           (conditional_format_and_freeze writable_world fixture produced_writable)))).
Defined.

(** X7: the column widths.  In each produced sheet a column has a width
    exactly when the script sets one, and it is the one set: EstimateData
    has the ten of the table for A..J (5, 14, 8, 8, 12, 12, 12, 14, 8, 10),
    DeptSummary has 14 for A..D, Settings has 18 for A and 14 for B. *)
Theorem column_widths (w : World) (wb : Workbook) :
  produced w = Some wb →
  (∃ m, ws_column_width <$> sheet_named wb "EstimateData" = Some m
        ∧ ∀ col width, m !! col = Some width
            ↔ (col, width) ∈ [("A", 5); ("B", 14); ("C", 8); ("D", 8); ("E", 12);
                              ("F", 12); ("G", 12); ("H", 14); ("I", 8); ("J", 10)])
  ∧ (∃ m, ws_column_width <$> sheet_named wb "DeptSummary" = Some m
          ∧ ∀ col width, m !! col = Some width
              ↔ (col, width) ∈ [("A", 14); ("B", 14); ("C", 14); ("D", 14)])
  ∧ (∃ m, ws_column_width <$> sheet_named wb "Settings" = Some m
          ∧ ∀ col width, m !! col = Some width ↔ (col, width) ∈ [("A", 18); ("B", 14)]).
Proof.
  intros ->%produced_fixture.
  assert (Hmap : ∀ name (l : list (string * Z)),
            ws_column_width <$> sheet_named fixture name = Some (list_to_map l) →
            NoDup l.*1 →
            ∃ m, ws_column_width <$> sheet_named fixture name = Some m
                 ∧ ∀ col width, m !! col = Some width ↔ (col, width) ∈ l).
  { intros name l Hl Hnd. exists (list_to_map l). split; [done |].
    intros col width. symmetry. by apply elem_of_list_to_map. }
  split; [| split]; apply Hmap; first [by vm_compute | apply (bool_decide_unpack _); by vm_compute].
Qed.

Lemma column_widths_witness :
  ∃ m, ws_column_width <$> sheet_named fixture "Settings" = Some m
       ∧ m !! "A" = Some 18.
Proof.
  destruct (column_widths writable_world fixture produced_writable) as (_ & _ & m & Hm & H).
  exists m. split; [exact Hm |]. apply H. apply list_elem_of_here.
Defined.

(** X8: row 1 of DeptSummary holds the four headers Dept, Count, TotalCost,
    AvgSalary in order, bold with the light-blue fill, and, unlike the
    header row of EstimateData, without a border. *)
Theorem dept_header_row (w : World) (wb : Workbook) (c : Z) :
  produced w = Some wb → 1 ≤ c ≤ 4 →
  ∃ h x,
    ["Dept"; "Count"; "TotalCost"; "AvgSalary"] !! Z.to_nat (c - 1) = Some h
    ∧ cell_at wb "DeptSummary" (1, c) = Some x
    ∧ cell_value x = VStr h
    ∧ cell_data_type x = TYPE_STRING
    ∧ font_bold (cell_font x) = true
    ∧ cell_fill x = blue_fill
    ∧ cell_border x = DEFAULT_BORDER
    ∧ cell_border x ≠ thin_border.
Proof.
  intros ->%produced_fixture Hc.
  assert (H : dept_header_ok fixture c = true).
  { apply (range_forallb (dept_header_ok fixture) 1 5); [by vm_compute | lia]. }
  unfold dept_header_ok in H. change dept_headers with ["Dept"; "Count"; "TotalCost"; "AvgSalary"] in H.
  destruct (["Dept"; "Count"; "TotalCost"; "AvgSalary"] !! Z.to_nat (c - 1)) as [h |];
    [| discriminate].
  apply bool_decide_eq_true in H.
  exists h, (text_cell h bold_font blue_fill DEFAULT_BORDER). by repeat split.
Qed.

Lemma dept_header_row_witness :
  ∃ h x, ["Dept"; "Count"; "TotalCost"; "AvgSalary"] !! Z.to_nat (3 - 1) = Some h
         ∧ cell_at fixture "DeptSummary" (1, 3) = Some x ∧ cell_value x = VStr h.
Proof.
  destruct (dept_header_row writable_world fixture 3 produced_writable)
    as (h & x & H1 & H2 & H3 & _); [lia |].
  by exists h, x.
Defined.

(** X9: Settings.  Row 1 holds the bold headers SettingName and Value.  For
    i in 0..4, row i+2 holds the i-th pair of the table, unstyled: the name
    in A as a string, the value in B as written, numeric for the int and the
    two rates, a plain string for CalcMonth (2026-02 is not turned into a
    date) and for Author. *)
Theorem settings_rows (w : World) (wb : Workbook) (i : Z) :
  produced w = Some wb → 0 ≤ i ≤ 4 →
  cell_at wb "Settings" (1, 1)
  = Some (text_cell "SettingName" bold_font DEFAULT_EMPTY_FILL DEFAULT_BORDER)
  ∧ cell_at wb "Settings" (1, 2)
    = Some (text_cell "Value" bold_font DEFAULT_EMPTY_FILL DEFAULT_BORDER)
  ∧ ∃ name val x,
      [("CalcMonth", VStr "2026-02");
       ("TaxRate", VFloat (Decimal 1 1));
       ("InsuranceRate", VFloat (Decimal 15 2));
       ("CommuteLimit", VInt 30000);
       ("Author", VStr "BP_User")] !! Z.to_nat i = Some (name, val)
      ∧ cell_at wb "Settings" (i + 2, 1)
        = Some (text_cell name DEFAULT_FONT DEFAULT_EMPTY_FILL DEFAULT_BORDER)
      ∧ cell_at wb "Settings" (i + 2, 2) = Some x
      ∧ cell_value x = val
      ∧ cell_data_type x = (match val with VStr _ => TYPE_STRING | _ => TYPE_NUMERIC end)
      ∧ cell_number_format x = "General"
      ∧ cell_font x = DEFAULT_FONT
      ∧ cell_fill x = DEFAULT_EMPTY_FILL.
Proof.
  intros ->%produced_fixture Hi.
  split; [by vm_compute |]. split; [by vm_compute |].
  assert (H : setting_row_ok fixture i = true).
  { apply (range_forallb (setting_row_ok fixture) 0 5); [by vm_compute | lia]. }
  unfold setting_row_ok in H.
  change settings with
    [("CalcMonth", VStr "2026-02");
     ("TaxRate", VFloat (Decimal 1 1));
     ("InsuranceRate", VFloat (Decimal 15 2));
     ("CommuteLimit", VInt 30000);
     ("Author", VStr "BP_User")] in H.
  match type of H with
  | match ?l !! ?n with _ => _ end = true => destruct (l !! n) as [[name val] |]; [| discriminate]
  end.
  apply andb_prop in H as [H1 H2]. apply bool_decide_eq_true in H1, H2.
  exists name, val. eexists. split; [done |]. split; [exact H1 |]. split; [exact H2 |].
  by repeat split.
Qed.

Lemma settings_rows_witness :
  cell_at fixture "Settings" (1, 1)
  = Some (text_cell "SettingName" bold_font DEFAULT_EMPTY_FILL DEFAULT_BORDER).
Proof.
  refine (proj1 (settings_rows writable_world fixture 0 produced_writable _)). lia.
Defined.

(** X10: the department written to column C of each data row of
    EstimateData is the label in column A of exactly one of the rows 2..5 of
    DeptSummary, so the COUNTIF and SUMIF rows of the summary count every
    record once. *)
Theorem each_record_in_one_summary_row (w : World) (wb : Workbook) (r : Z) :
  produced w = Some wb → 3 ≤ r ≤ 12 →
  ∃ k,
    2 ≤ k ≤ 5
    ∧ is_Some (cell_at wb "EstimateData" (r, 3))
    ∧ cell_value <$> cell_at wb "DeptSummary" (k, 1)
      = cell_value <$> cell_at wb "EstimateData" (r, 3)
    ∧ ∀ k', 2 ≤ k' ≤ 5 →
        cell_value <$> cell_at wb "DeptSummary" (k', 1)
        = cell_value <$> cell_at wb "EstimateData" (r, 3) →
        k' = k.
Proof.
  intros ->%produced_fixture Hr.
  assert (H : one_summary_row fixture r = true).
  { apply (range_forallb (one_summary_row fixture) 3 13); [by vm_compute | lia]. }
  unfold one_summary_row in H. apply andb_prop in H as [Hs Hl].
  apply bool_decide_eq_true in Hs, Hl.
  destruct (summary_rows_of fixture r) as [| k [| ? ?]] eqn:E; try discriminate.
  assert (Hin : ∀ k', k' ∈ summary_rows_of fixture r
                  ↔ (cell_value <$> cell_at fixture "DeptSummary" (k', 1)
                     = cell_value <$> cell_at fixture "EstimateData" (r, 3))
                    ∧ 2 ≤ k' < 6).
  { intros k'. unfold summary_rows_of. rewrite list_elem_of_filter.
    unfold range. rewrite elem_of_seqZ. split; intros [? ?]; split; first [done | lia]. }
  rewrite E in Hin.
  destruct (proj1 (Hin k)) as [Hk Hb]; [apply list_elem_of_singleton; done |].
  exists k. split; [lia |]. split; [done |]. split; [done |].
  intros k' Hk' Heq. apply list_elem_of_singleton, Hin. split; [done | lia].
Qed.

Lemma each_record_in_one_summary_row_witness :
  ∃ k, 2 ≤ k ≤ 5
       ∧ cell_value <$> cell_at fixture "DeptSummary" (k, 1)
         = cell_value <$> cell_at fixture "EstimateData" (5, 3).
Proof.
  destruct (each_record_in_one_summary_row writable_world fixture 5 produced_writable)
    as (k & H1 & _ & H2 & _); [lia |].
  by exists k.
Defined.

(** ** What a run does to the world *)

Lemma run_effect (w : World) :
  open_error w (OUTPUT_PATH w) = None →
  world_after w
  = {| sys_argv := sys_argv w; os_environ := os_environ w;
       module_dir := module_dir w; os_path_join := os_path_join w;
       open_error := open_error w;
       fs_files := <[OUTPUT_PATH w := fixture]> (fs_files w);
       stdout := (stdout w ++ summary_lines (OUTPUT_PATH w))%list |}.
Proof.
  intros H. unfold world_after, create_test_workbook, Workbook_save.
  rewrite populate_ok, H. unfold print, summary_lines. cbn [snd stdout sys_argv os_environ
    module_dir os_path_join open_error fs_files].
  f_equal. rewrite <- !(assoc_L (++)%list). reflexivity.
Qed.

(** X11: a run in a world where the output file can be created replaces
    whatever file was at the output path by the fixture, with no other file
    created, changed or removed; appends the five summary lines, the first
    naming the output path, after whatever was printed before; and leaves
    arguments, environment and script location as they were. *)
Theorem successful_run_effect (w : World) :
  open_error w (OUTPUT_PATH w) = None →
  fs_files (world_after w) !! OUTPUT_PATH w = Some fixture
  ∧ (∀ p, p ≠ OUTPUT_PATH w → fs_files (world_after w) !! p = fs_files w !! p)
  ∧ dom (fs_files (world_after w)) = {[ OUTPUT_PATH w ]} ∪ dom (fs_files w)
  ∧ stdout (world_after w)
    = (stdout w
       ++ ["Test workbook created: " +:+ OUTPUT_PATH w;
           "  Sheet1: EstimateData (freeze panes, formulas, conditional format, format-only empty cells)";
           "  Sheet2: DeptSummary (cross-sheet formulas, named ranges)";
           "  Sheet3: Settings (master data)";
           "  Note: .xlsx format (no VBA). For VBA testing, use PS script on a PC with valid Excel license."])%list
  ∧ sys_argv (world_after w) = sys_argv w
  ∧ os_environ (world_after w) = os_environ w
  ∧ OUTPUT_PATH (world_after w) = OUTPUT_PATH w.
Proof.
  intros H. rewrite (run_effect w H). unfold OUTPUT_PATH, OUTPUT_DIR.
  cbn [fs_files stdout sys_argv os_environ module_dir os_path_join].
  split; [apply lookup_insert_eq |].
  split; [intros p Hp; by apply lookup_insert_ne |].
  split; [apply dom_insert_L |].
  by repeat split.
Qed.

Lemma successful_run_effect_witness :
  fs_files (world_after busy_world) !! OUTPUT_PATH busy_world = Some fixture.
Proof.
  refine (proj1 (successful_run_effect busy_world _)). reflexivity.
Defined.

(** X12: running the generator a second time, in the world the first run
    left, succeeds again and changes no file: the file system after the
    second run is the one after the first.  Only the summary is printed a
    second time. *)
Theorem rerun_changes_no_file (w : World) :
  open_error w (OUTPUT_PATH w) = None →
  (create_test_workbook (world_after w)).1 = inr ()
  ∧ fs_files (world_after (world_after w)) = fs_files (world_after w)
  ∧ stdout (world_after (world_after w))
    = (stdout w ++ summary_lines (OUTPUT_PATH w) ++ summary_lines (OUTPUT_PATH w))%list.
Proof.
  intros H. pose proof (world_after_writable w H) as H1.
  split; [by apply run_writable |].
  rewrite (run_effect _ H1). rewrite (run_effect w H).
  unfold OUTPUT_PATH, OUTPUT_DIR.
  cbn [fs_files stdout sys_argv os_environ module_dir os_path_join].
  split; [apply insert_insert_eq |]. by rewrite <- (assoc_L (++)%list).
Qed.

Lemma rerun_changes_no_file_witness :
  fs_files (world_after (world_after writable_world)) = fs_files (world_after writable_world).
Proof.
  refine (proj1 (proj2 (rerun_changes_no_file writable_world _))). reflexivity.
Defined.

(** ** The cell operations, on any workbook *)

Lemma bind_run {A B : Type} (m : Build A) (f : A → Build B) wb a wb' :
  m wb = inr (a, wb') → (m ≫= f) wb = f a wb'.
Proof. unfold mbind, Build_bind. by intros ->. Qed.

Lemma set_cells_id (sh : Worksheet) : set_cells (ws_cells sh) sh = sh.
Proof. by destruct sh. Qed.

Lemma set_sheets_id (wb : Workbook) : set_sheets (wb_sheets wb) wb = wb.
Proof. by destruct wb. Qed.

Lemma put_cells_id ws sh wb :
  wb_sheets wb !! ws = Some sh → put_cells ws sh (ws_cells sh) wb = wb.
Proof.
  intros H. unfold put_cells. rewrite set_cells_id, list_insert_id by done.
  apply set_sheets_id.
Qed.

Lemma put_cells_put ws sh m m' wb :
  put_cells ws sh m' (put_cells ws sh m wb) = put_cells ws sh m' wb.
Proof. unfold put_cells, set_sheets. simpl. by rewrite list_insert_insert_eq. Qed.

Lemma sheets_put ws sh m wb :
  (ws < length (wb_sheets wb))%nat →
  wb_sheets (put_cells ws sh m wb) !! ws = Some (set_cells m sh).
Proof. intros H. unfold put_cells. simpl. by apply list_lookup_insert_eq. Qed.

Lemma cell_of_put_same ws sh m wb rc :
  (ws < length (wb_sheets wb))%nat → cell_of (put_cells ws sh m wb) (ws, rc) = m !! rc.
Proof. intros H. unfold cell_of. simpl. by rewrite list_lookup_insert_eq. Qed.

Lemma cell_of_put_other ws sh m wb ws' rc :
  ws' ≠ ws → cell_of (put_cells ws sh m wb) (ws', rc) = cell_of wb (ws', rc).
Proof. intros H. unfold cell_of. simpl. by rewrite list_lookup_insert_ne. Qed.

Lemma sheetnames_put ws sh m wb :
  wb_sheets wb !! ws = Some sh → sheetnames (put_cells ws sh m wb) = sheetnames wb.
Proof.
  intros H. unfold sheetnames, put_cells. simpl.
  rewrite list_fmap_insert. simpl. by apply list_insert_id, list_lookup_fmap_Some_2.
Qed.

Lemma ws_cell_put ws sh m wb r c :
  (ws < length (wb_sheets wb))%nat → 1 ≤ r ≤ 1048576 → 1 ≤ c →
  ws_cell ws r c VNone (put_cells ws sh m wb)
  = inr ((ws, (r, c)), put_cells ws sh (<[(r, c) := default new_cell (m !! (r, c))]> m) wb).
Proof.
  intros Hws Hr Hc. unfold ws_cell, on_sheet. rewrite sheets_put by done.
  replace ((r <? 1) || (c <? 1)) with false by lia.
  replace (negb ((0 <? r) && (r <? 1048577))) with false by lia.
  simpl. unfold put_cells, set_sheets. simpl. by rewrite list_insert_insert_eq.
Qed.

Lemma ws_cell_put_value ws sh m wb r c v x :
  (ws < length (wb_sheets wb))%nat → 1 ≤ r ≤ 1048576 → 1 ≤ c →
  v ≠ VNone → bind_value v (default new_cell (m !! (r, c))) = inr x →
  ws_cell ws r c v (put_cells ws sh m wb)
  = inr ((ws, (r, c)), put_cells ws sh (<[(r, c) := x]> m) wb).
Proof.
  intros Hws Hr Hc Hv Hb. unfold ws_cell, on_sheet. rewrite sheets_put by done.
  replace ((r <? 1) || (c <? 1)) with false by lia.
  replace (negb ((0 <? r) && (r <? 1048577))) with false by lia.
  simpl ws_cells. rewrite Hb.
  destruct v; [done | ..]; unfold put_cells, set_sheets; simpl;
    by rewrite list_insert_insert_eq.
Qed.

Lemma on_cell_put ws sh m wb rc (f : Cell → exn + Cell) x x' :
  (ws < length (wb_sheets wb))%nat → m !! rc = Some x → f x = inr x' →
  on_cell (ws, rc) f (put_cells ws sh m wb)
  = inr ((), put_cells ws sh (<[rc := x']> m) wb).
Proof.
  intros Hws Hm Hf. unfold on_cell, on_sheet. simpl fst. rewrite sheets_put by done.
  simpl. rewrite Hm, Hf. unfold put_cells, set_sheets. simpl.
  by rewrite list_insert_insert_eq.
Qed.

Lemma cell_of_other_cell ws sh m wb ref k x :
  (ws < length (wb_sheets wb))%nat → ref ≠ (ws, k) →
  cell_of (put_cells ws sh (<[k := x]> m) wb) ref = cell_of (put_cells ws sh m wb) ref.
Proof.
  intros Hws Hne. destruct ref as [ws' k'].
  destruct (decide (ws' = ws)) as [-> |].
  - rewrite !cell_of_put_same by done. apply lookup_insert_ne. congruence.
  - by rewrite !cell_of_put_other.
Qed.

(** X13: [ws.cell(row, column)] with no value, on any workbook, for a row in
    1..1048576 and a column from 1 on: it returns the handle of that cell,
    which afterwards exists; an absent cell is created empty and unstyled; a
    cell that is already there is returned as it is and the workbook does
    not change at all; no other cell and no sheet title changes. *)
Theorem cell_get_or_create (wb : Workbook) (ws : SheetRef) (sh : Worksheet) (r c : Z) :
  wb_sheets wb !! ws = Some sh → 1 ≤ r ≤ 1048576 → 1 ≤ c →
  ∃ wb',
    ws_cell ws r c VNone wb = inr ((ws, (r, c)), wb')
    ∧ cell_of wb' (ws, (r, c)) = Some (default new_cell (ws_cells sh !! (r, c)))
    ∧ (ws_cells sh !! (r, c) = None → cell_of wb' (ws, (r, c)) = Some new_cell)
    ∧ (is_Some (ws_cells sh !! (r, c)) → wb' = wb)
    ∧ (∀ ref, ref ≠ (ws, (r, c)) → cell_of wb' ref = cell_of wb ref)
    ∧ sheetnames wb' = sheetnames wb.
Proof.
  intros Hsh Hr Hc.
  assert (Hws : (ws < length (wb_sheets wb))%nat) by (by eapply lookup_lt_Some).
  eexists. split.
  { rewrite <- (put_cells_id ws sh wb Hsh) at 1. by apply ws_cell_put. }
  split; [rewrite cell_of_put_same by done; apply lookup_insert_eq |].
  split; [intros Hn; rewrite cell_of_put_same, Hn by done; apply lookup_insert_eq |].
  split.
  { intros [x Hx]. rewrite Hx. simpl. rewrite insert_id by done.
    by apply put_cells_id. }
  split; [| by apply sheetnames_put].
  intros ref Hne. rewrite cell_of_other_cell by done. by rewrite put_cells_id.
Qed.

Lemma cell_get_or_create_witness :
  ∃ wb', ws_cell 0%nat 7 3 VNone Workbook_new = inr ((0%nat, (7, 3)), wb')
         ∧ cell_of wb' (0%nat, (7, 3)) = Some new_cell.
Proof.
  destruct (cell_get_or_create Workbook_new 0%nat (new_sheet "Sheet") 7 3)
    as (wb' & H1 & _ & H2 & _); [reflexivity | lia | lia |].
  exists wb'. split; [exact H1 | by apply H2].
Defined.

(** X14: [ws.cell] rejects a row or a column below 1 and a row above
    1048576 with a [ValueError], whatever value is passed, and then the
    workbook is not touched (nothing is returned to go on with). *)
Theorem cell_out_of_bounds (wb : Workbook) (ws : SheetRef) (sh : Worksheet) (r c : Z) (v : value) :
  wb_sheets wb !! ws = Some sh → r < 1 ∨ c < 1 ∨ 1048576 < r →
  ∃ msg, ws_cell ws r c v wb = inl (ValueError msg).
Proof.
  intros Hsh Hb. unfold ws_cell, on_sheet. rewrite Hsh.
  destruct ((r <? 1) || (c <? 1)) eqn:E1; [by eexists |].
  destruct (negb ((0 <? r) && (r <? 1048577))) eqn:E2; [by eexists |].
  lia.
Qed.

Lemma cell_out_of_bounds_witness :
  ∃ msg, ws_cell 0%nat 0 1 (VInt 5) Workbook_new = inl (ValueError msg).
Proof.
  apply (cell_out_of_bounds Workbook_new 0%nat (new_sheet "Sheet") 0 1 (VInt 5));
    [reflexivity | lia].
Defined.

(** X15: assigning [font], [fill], [border] or [number_format] through a
    cell handle changes that one attribute of that one cell: the value, the
    data type and the other three attributes stay, and so does every other
    cell. *)
Theorem style_assignment (wb : Workbook) (ref : CellRef) (x : Cell)
    (f : Font) (p : PatternFill) (b : Border) (nf : string) :
  cell_of wb ref = Some x →
  (∃ wb', set_font ref f wb = inr ((), wb')
          ∧ cell_of wb' ref = Some (with_font f x)
          ∧ ∀ ref', ref' ≠ ref → cell_of wb' ref' = cell_of wb ref')
  ∧ (∃ wb', set_fill ref p wb = inr ((), wb')
            ∧ cell_of wb' ref = Some (with_fill p x)
            ∧ ∀ ref', ref' ≠ ref → cell_of wb' ref' = cell_of wb ref')
  ∧ (∃ wb', set_border ref b wb = inr ((), wb')
            ∧ cell_of wb' ref = Some (with_border b x)
            ∧ ∀ ref', ref' ≠ ref → cell_of wb' ref' = cell_of wb ref')
  ∧ (∃ wb', set_number_format ref nf wb = inr ((), wb')
            ∧ cell_of wb' ref = Some (with_number_format nf x)
            ∧ ∀ ref', ref' ≠ ref → cell_of wb' ref' = cell_of wb ref')
  ∧ cell_value (with_font f x) = cell_value x
  ∧ cell_value (with_fill p x) = cell_value x
  ∧ cell_value (with_border b x) = cell_value x
  ∧ cell_value (with_number_format nf x) = cell_value x
  ∧ cell_data_type (with_number_format nf x) = cell_data_type x
  ∧ cell_fill (with_font f x) = cell_fill x
  ∧ cell_font (with_fill p x) = cell_font x
  ∧ cell_fill (with_number_format nf x) = cell_fill x
  ∧ cell_font (with_number_format nf x) = cell_font x.
Proof.
  intros Hx. destruct ref as [ws k]. unfold cell_of in Hx. simpl in Hx.
  destruct (wb_sheets wb !! ws) as [sh |] eqn:Hsh; [| discriminate]. simpl in Hx.
  assert (Hws : (ws < length (wb_sheets wb))%nat) by (by eapply lookup_lt_Some).
  assert (Hgen : ∀ g : Cell → Cell,
            ∃ wb', on_cell (ws, k) (λ y, inr (g y)) wb = inr ((), wb')
                   ∧ cell_of wb' (ws, k) = Some (g x)
                   ∧ ∀ ref', ref' ≠ (ws, k) → cell_of wb' ref' = cell_of wb ref').
  { intros g. eexists. split.
    { rewrite <- (put_cells_id ws sh wb Hsh) at 1. by eapply on_cell_put. }
    split; [rewrite cell_of_put_same by done; apply lookup_insert_eq |].
    intros ref' Hne. rewrite cell_of_other_cell by done. by rewrite put_cells_id. }
  split; [apply (Hgen (with_font f)) |].
  split; [apply (Hgen (with_fill p)) |].
  split; [apply (Hgen (with_border b)) |].
  split; [apply (Hgen (with_number_format nf)) |].
  by repeat split.
Qed.

Lemma style_assignment_witness :
  ∃ wb', set_fill (0%nat, (1, 1)) gray_fill fixture = inr ((), wb')
         ∧ fill_type ∘ cell_fill <$> cell_of wb' (0%nat, (1, 1)) = Some (Some "solid").
Proof.
  destruct (style_assignment fixture (0%nat, (1, 1))
              (text_cell "No" bold_font blue_fill thin_border)
              bold_font gray_fill thin_border "0.0")
    as (_ & (wb' & H1 & H2 & _) & _); [by vm_compute |].
  exists wb'. split; [exact H1 |]. rewrite H2. reflexivity.
Defined.

(** ** Values, column letters, sheets and names *)

Lemma str_take_all (n : Z) (s : string) : Z.of_nat (String.length s) ≤ n → str_take n s = s.
Proof.
  revert n. induction s as [| a t IH]; intros n H; simpl in *; [done |].
  destruct (Z.leb_spec n 0); [lia |]. f_equal. apply IH. lia.
Qed.

(** X16: storing a string of at most 32767 characters in a cell.  A string
    with a control character (0..8, 11, 12, 14..31) raises
    [IllegalCharacterError].  Any other string is stored unchanged and the
    style of the cell stays; it is typed as a formula exactly when it starts
    with "=" and has at least one more character (the lone "=" is text), and
    as an error value exactly when it is one of the seven error codes. *)
Theorem string_assignment (s : string) (c : Cell) :
  Z.of_nat (String.length s) ≤ 32767 →
  (has_illegal_character s = true
   ∧ bind_value (VStr s) c = inl (IllegalCharacterError s))
  ∨ (has_illegal_character s = false
     ∧ ∃ c', bind_value (VStr s) c = inr c'
             ∧ cell_value c' = VStr s
             ∧ (cell_data_type c' = TYPE_FORMULA ↔ ∃ a t, s = String "=" (String a t))
             ∧ (cell_data_type c' = TYPE_ERROR ↔ s ∈ ERROR_CODES)
             ∧ (cell_data_type c' = TYPE_NUMERIC → False)
             ∧ cell_font c' = cell_font c
             ∧ cell_fill c' = cell_fill c
             ∧ cell_border c' = cell_border c
             ∧ cell_number_format c' = cell_number_format c).
Proof.
  intros Hlen. unfold bind_value, check_string. rewrite (str_take_all _ _ Hlen).
  destruct (has_illegal_character s); [by left |]. right. split; [done |].
  assert (Hform : (1 <? Z.of_nat (String.length s)) && starts_with_eq s = true
                  ↔ ∃ a t, s = String "=" (String a t)).
  { split.
    - intros [E1 E2]%andb_prop.
      destruct s as [| a [| b t]]; simpl in *; try discriminate.
      destruct a as [[|] [|] [|] [|] [|] [|] [|] [|]]; try discriminate E2. eauto.
    - intros (a & t & ->). apply andb_true_intro. split; [| done].
      simpl String.length. apply Z.ltb_lt. lia. }
  assert (Hcodes : ∀ a t, String "=" (String a t) ∉ ERROR_CODES).
  { intros a t H. unfold ERROR_CODES in H.
    repeat (apply elem_of_cons in H as [H | H]; [discriminate |]).
    by apply elem_of_nil in H. }
  destruct ((1 <? Z.of_nat (String.length s)) && starts_with_eq s) eqn:E.
  - eexists. split; [reflexivity |]. simpl.
    destruct (proj1 Hform eq_refl) as (a & t & ->).
    repeat split; try done; eauto.
    intros H. by apply Hcodes in H.
  - assert (Hno : ¬ ∃ a t, s = String "=" (String a t)).
    { intros H. apply Hform in H. discriminate. }
    case_bool_decide as Herr; eexists; (split; [reflexivity |]); simpl;
      repeat split; try done.
Qed.

Lemma string_assignment_witness :
  ∃ c', bind_value (VStr "=") new_cell = inr c' ∧ cell_value c' = VStr "=".
Proof.
  destruct (string_assignment "=" new_cell) as [[H _] | [_ (c' & H1 & H2 & _)]];
    [simpl; lia | discriminate | by exists c'].
Defined.

(** Reading letters with a carried-in prefix. *)
Lemma letter_value (r : Z) :
  1 ≤ r ≤ 26 →
  Z.of_nat (nat_of_ascii (upper (ascii_of_nat (Z.to_nat (r + 64))))) - 64 = r
  ∧ is_upper (ascii_of_nat (Z.to_nat (r + 64))) = true.
Proof.
  intros Hr.
  assert (H : letter_ok r = true).
  { apply (range_forallb letter_ok 1 27); [by vm_compute | lia]. }
  unfold letter_ok in H. apply andb_prop in H as [H1 H2]. split; [lia | done].
Qed.

Lemma column_letters_spec (fuel : nat) (c : Z) (letters : list ascii) :
  0 ≤ c ≤ last_column fuel →
  fold_left (λ acc a, 26 * acc + (Z.of_nat (nat_of_ascii (upper a)) - 64))
            (column_letters fuel c letters) 0
  = fold_left (λ acc a, 26 * acc + (Z.of_nat (nat_of_ascii (upper a)) - 64)) letters c
  ∧ (length (column_letters fuel c letters) ≤ fuel + length letters)%nat
  ∧ (1 ≤ c → (1 + length letters ≤ length (column_letters fuel c letters))%nat)
  ∧ (forallb is_upper letters = true →
     forallb is_upper (column_letters fuel c letters) = true).
Proof.
  revert c letters. induction fuel as [| fuel IH]; intros c letters Hc.
  - simpl in *. assert (c = 0) as -> by lia. repeat split; [lia | lia | done].
  - cbn [column_letters]. destruct (Z.ltb_spec 0 c) as [Hpos | Hz].
    + set (q := c / 26). set (r := c mod 26).
      assert (Hqr : c = 26 * q + r ∧ 0 ≤ r < 26).
      { unfold q, r. split; [apply Z.div_mod; lia | apply Z.mod_pos_bound; lia]. }
      cbn [last_column] in Hc.
      destruct (Z.eqb_spec r 0) as [Hr0 | Hr0].
      * destruct (IH (q - 1) (ascii_of_nat (Z.to_nat (26 + 64)) :: letters)) as (H1 & H2 & H3 & H4);
          [lia |].
        destruct (letter_value 26) as [Hv Hu]; [lia |].
        split; [rewrite H1; cbn [fold_left]; rewrite Hv; f_equal; lia |].
        split; [cbn [length] in H2; lia |].
        split; [intros _; cbn [length] in H2, H3 |- *; destruct (decide (1 ≤ q - 1));
                  [specialize (H3 ltac:(done)); lia |] |].
        { assert (q - 1 = 0) as Hq by lia. rewrite Hq.
          destruct fuel; cbn [column_letters length]; simpl; lia. }
        intros Hl. apply H4. cbn [forallb]. by rewrite Hu.
      * destruct (IH q (ascii_of_nat (Z.to_nat (r + 64)) :: letters)) as (H1 & H2 & H3 & H4);
          [lia |].
        destruct (letter_value r) as [Hv Hu]; [lia |].
        split; [rewrite H1; cbn [fold_left]; rewrite Hv; f_equal; lia |].
        split; [cbn [length] in H2; lia |].
        split; [intros _; cbn [length] in H2, H3 |- *; destruct (decide (1 ≤ q));
                  [specialize (H3 ltac:(done)); lia |] |].
        { assert (q = 0) as Hq by lia. rewrite Hq.
          destruct fuel; cbn [column_letters length]; simpl; lia. }
        intros Hl. apply H4. cbn [forallb]. by rewrite Hu.
    + assert (c = 0) as -> by lia. repeat split; [lia | lia | done].
Qed.

Lemma column_letter_in_range (c : Z) :
  1 ≤ c ≤ 18278 →
  ∃ s, get_column_letter c = inr s
       ∧ column_index_from_letters (list_ascii_of_string s) = c
       ∧ (1 ≤ String.length s ≤ 3)%nat
       ∧ forallb is_upper (list_ascii_of_string s) = true.
Proof.
  intros Hc. unfold get_column_letter.
  replace ((1 <=? c) && (c <=? 18278)) with true by lia.
  destruct (column_letters_spec 3 c []) as (H1 & H2 & H3 & H4); [simpl; lia |].
  eexists. split; [reflexivity |].
  rewrite list_ascii_of_string_of_list_ascii.
  assert (Hl : String.length (string_of_list_ascii (column_letters 3 c []))
               = length (column_letters 3 c [])).
  { generalize (column_letters 3 c []). intros l. induction l; simpl; congruence. }
  rewrite Hl. split; [exact H1 |]. split; [| by apply H4].
  specialize (H3 ltac:(lia)). change (length (@nil ascii)) with 0%nat in H2, H3. lia.
Qed.

Lemma column_letter_out_of_range (c : Z) :
  c < 1 ∨ 18278 < c → ∃ msg, get_column_letter c = inl (ValueError msg).
Proof.
  intros Hc. unfold get_column_letter.
  replace ((1 <=? c) && (c <=? 18278)) with false by lia. by eexists.
Qed.

(** X17: [get_column_letter] and the reading of column letters are inverse
    on the columns 1..18278: every such column has a name of one to three
    capital letters, and [column_index_from_letters] reads that name back as
    the same column.  Outside 1..18278 [get_column_letter] raises a
    [ValueError]. *)
Theorem column_letter_round_trip (c : Z) :
  (1 ≤ c ≤ 18278
   ∧ ∃ s, get_column_letter c = inr s
          ∧ column_index_from_letters (list_ascii_of_string s) = c
          ∧ (1 ≤ String.length s ≤ 3)%nat
          ∧ forallb is_upper (list_ascii_of_string s) = true)
  ∨ ((c < 1 ∨ 18278 < c) ∧ ∃ msg, get_column_letter c = inl (ValueError msg)).
Proof.
  destruct (decide (1 ≤ c ≤ 18278)) as [Hc | Hc].
  - left. split; [done |]. by apply column_letter_in_range.
  - right. split; [lia |]. apply column_letter_out_of_range. lia.
Qed.











(** X19: [wb.create_sheet(title)] with a title that is not empty, has none
    of the characters \ * ? : / [ ] and differs, ignoring case, from every
    title in use: the new sheet gets exactly that title, is appended after
    the existing sheets, which stay as they are, and is empty; the handle
    returned is its position; defined names and the active sheet do not
    change; and if the titles were pairwise distinct they still are. *)
Theorem create_sheet_fresh (wb : Workbook) (title : string) :
  title ≠ "" →
  existsb invalid_title_char (list_ascii_of_string title) = false →
  (∀ n, n ∈ sheetnames wb → lower_string n ≠ lower_string title) →
  ∃ wb',
    create_sheet title wb = inr (length (wb_sheets wb), wb')
    ∧ wb_sheets wb' = (wb_sheets wb ++ [new_sheet title])%list
    ∧ sheetnames wb' = (sheetnames wb ++ [title])%list
    ∧ wb_sheets wb' !! length (wb_sheets wb) = Some (new_sheet title)
    ∧ (∀ i sh, wb_sheets wb !! i = Some sh → wb_sheets wb' !! i = Some sh)
    ∧ ws_cells (new_sheet title) = ∅
    ∧ wb_defined_names wb' = wb_defined_names wb
    ∧ wb_active_sheet_index wb' = wb_active_sheet_index wb
    ∧ (NoDup (sheetnames wb) → NoDup (sheetnames wb')).
Proof.
  intros Hne Hinv Hfresh.
  assert (Hchk : checked_title (sheetnames wb) "" title = inr title).
  { unfold checked_title. rewrite Hinv.
    destruct (String.eqb_spec title "") as [| _]; [done |].
    destruct (String.eqb_spec "" title) as [| _]; [congruence |]. simpl.
    unfold avoid_duplicate_name.
    replace (existsb _ (sheetnames wb)) with false; [done |].
    symmetry. apply not_true_iff_false. intros (n & Hn & Hb)%existsb_exists.
    apply bool_decide_eq_true in Hb. apply (Hfresh n); [| done].
    by apply list_elem_of_In. }
  unfold create_sheet. rewrite Hchk. eexists. split; [reflexivity |].
  simpl. split; [done |].
  split; [unfold sheetnames; simpl; by rewrite fmap_app |].
  split; [by rewrite lookup_app_r, Nat.sub_diag |].
  split; [intros i sh Hi; by apply lookup_app_l_Some |].
  split; [done |]. split; [done |]. split; [done |].
  intros Hnd. unfold sheetnames. simpl. rewrite fmap_app. simpl.
  apply NoDup_app. split; [done |]. split; [| apply NoDup_singleton].
  intros n Hn ->%list_elem_of_singleton. by apply (Hfresh title).
Qed.

Lemma create_sheet_fresh_witness :
  ∃ wb', create_sheet "DeptSummary" Workbook_new = inr (1%nat, wb')
         ∧ sheetnames wb' = ["Sheet"; "DeptSummary"].
Proof.
  destruct (create_sheet_fresh Workbook_new "DeptSummary") as (wb' & H1 & _ & H2 & _).
  - discriminate.
  - reflexivity.
  - intros n Hn. apply list_elem_of_singleton in Hn. subst n. discriminate.
  - exists wb'. split; [exact H1 | exact H2].
Defined.



Lemma dict_get_set {V : Type} (k k' : string) (v : V) (d : list (string * V)) :
  dict_get k' (dict_set k v d) = if String.eqb k k' then Some v else dict_get k' d.
Proof.
  induction d as [| [k0 v0] d IH]; simpl.
  - done.
  - destruct (String.eqb_spec k0 k) as [-> | Hk0]; simpl.
    + by destruct (String.eqb k k').
    + rewrite IH. destruct (String.eqb_spec k0 k') as [-> | _]; [| done].
      destruct (String.eqb_spec k k'); [congruence | done].
Qed.

Lemma dict_set_keys_in {V : Type} (k : string) (v : V) (d : list (string * V)) :
  k ∈ d.*1 → (dict_set k v d).*1 = d.*1.
Proof.
  induction d as [| [k0 v0] d IH]; intros Hin.
  - by apply elem_of_nil in Hin.
  - cbn [dict_set]. destruct (String.eqb_spec k0 k) as [-> | Hk0]; [done |].
    cbn. f_equal. apply IH. cbn in Hin. apply elem_of_cons in Hin as [? | ?]; [congruence | done].
Qed.

Lemma dict_set_keys_new {V : Type} (k : string) (v : V) (d : list (string * V)) :
  k ∉ d.*1 → (dict_set k v d).*1 = (d.*1 ++ [k])%list.
Proof.
  induction d as [| [k0 v0] d IH]; intros Hin; [done |].
  cbn in Hin. apply not_elem_of_cons in Hin as [Hne Hin].
  cbn [dict_set]. destruct (String.eqb_spec k0 k) as [-> | Hk0]; [done |].
  cbn. f_equal. by apply IH.
Qed.

(** X21: [wb.defined_names.add(dn)] never fails; afterwards the name of
    [dn] resolves to [dn], every other name resolves as before, and the
    sheets are untouched.  Registering a name that is already there replaces
    its definition in place (no second entry, same order); a new name goes
    last.  Names that were pairwise distinct stay so. *)
Theorem defined_name_registration (wb : Workbook) (dn : DefinedName) :
  ∃ wb',
    defined_names_add dn wb = inr ((), wb')
    ∧ dict_get (dn_name dn) (wb_defined_names wb') = Some dn
    ∧ (∀ k, k ≠ dn_name dn →
         dict_get k (wb_defined_names wb') = dict_get k (wb_defined_names wb))
    ∧ (wb_defined_names wb').*1
      = (if bool_decide (dn_name dn ∈ (wb_defined_names wb).*1)
         then (wb_defined_names wb).*1
         else ((wb_defined_names wb).*1 ++ [dn_name dn])%list)
    ∧ (NoDup (wb_defined_names wb).*1 → NoDup (wb_defined_names wb').*1)
    ∧ wb_sheets wb' = wb_sheets wb.
Proof.
  eexists. split; [reflexivity |]. simpl.
  split; [by rewrite dict_get_set, String.eqb_refl |].
  split.
  { intros k Hk. rewrite dict_get_set.
    destruct (String.eqb_spec (dn_name dn) k); [congruence | done]. }
  split.
  { case_bool_decide as Hin; [by apply dict_set_keys_in | by apply dict_set_keys_new]. }
  split; [| done].
  intros Hnd.
  destruct (decide (dn_name dn ∈ (wb_defined_names wb).*1)) as [Hin | Hin];
    [by rewrite dict_set_keys_in |].
  rewrite dict_set_keys_new by done.
  apply NoDup_app. split; [done |]. split; [| apply NoDup_singleton].
  by intros k Hk ->%list_elem_of_singleton.
Qed.
